(** * brew_tap_audit: a shallow embedding of [brew_tap_audit.py]

    The script lists the Homebrew taps, groups the installed formulae and
    casks by tap, and probes each tap's GitHub URL.  Its three contacts with
    the outside (the [brew] subprocess, [json.loads] and [urlopen]) are
    fields of a [World]; everything the script itself computes is a Rocq
    function over that world, in a small state-and-exception monad whose
    state is the chronological trace of subprocess calls, URL probes and
    printed lines. *)

From Stdlib Require Import Ascii String Floats.SpecFloat.
From stdpp Require Import base option list sorting strings pretty gmap fin_maps fin_sets.

#[local] Set Warnings "-register-all,-clear-no-such-hyp".

Local Open Scope string_scope.
Local Open Scope list_scope.

(** ** Python strings

    A Python [str] is modelled by its UTF-8 encoding, a Rocq [string] of
    bytes.  Splitting on the ASCII character [/] and lexicographic
    comparison agree on code points and on UTF-8 bytes. *)

Module PyStr.

Definition byte (c : ascii) : nat := nat_of_ascii c.
Definition is_byte (c : ascii) (b : nat) : bool := Nat.eqb (byte c) b.

(** [s.split(sep)] for a one-character ASCII separator: one more segment
    than there are separators, empty segments kept. *)
Fixpoint split (sep : ascii) (s : string) : list string :=
  match s with
  | "" => [""]
  | String c s' =>
      if decide (c = sep) then "" :: split sep s'
      else match split sep s' with
           | [] => [String c ""]
           | seg :: segs => String c seg :: segs
           end
  end.

(** [sep.join(l)]. *)
Definition join (sep : string) (l : list string) : string :=
  String.concat sep l.

(** Number of occurrences of a character. *)
Fixpoint count (c : ascii) (s : string) : nat :=
  match s with
  | "" => 0
  | String c' s' => (if decide (c' = c) then 1 else 0) + count c s'
  end.

(** [s.splitlines()]: the line boundaries of [str.splitlines] are
    LF, CR, CRLF, VT, FF, FS, GS, RS, NEL (U+0085, bytes C2 85),
    LS (U+2028, bytes E2 80 A8) and PS (U+2029, bytes E2 80 A9).  A last
    line is produced only when it is not empty. *)
Fixpoint splitlines_from (cur : string) (s : string) : list string :=
  match s with
  | "" => if decide (cur = "") then [] else [cur]
  | String c1 s1 =>
      if is_byte c1 13 then
        match s1 with
        | String c2 s2 =>
            if is_byte c2 10 then cur :: splitlines_from "" s2
            else cur :: splitlines_from "" s1
        | "" => cur :: splitlines_from "" s1
        end
      else if is_byte c1 10 || is_byte c1 11 || is_byte c1 12
              || is_byte c1 28 || is_byte c1 29 || is_byte c1 30 then
        cur :: splitlines_from "" s1
      else
        match s1 with
        | String c2 s2 =>
            if is_byte c1 194 && is_byte c2 133 then
              cur :: splitlines_from "" s2
            else
              match s2 with
              | String c3 s3 =>
                  if is_byte c1 226 && is_byte c2 128
                     && (is_byte c3 168 || is_byte c3 169) then
                    cur :: splitlines_from "" s3
                  else splitlines_from (cur +:+ String c1 "") s1
              | "" => splitlines_from (cur +:+ String c1 "") s1
              end
        | "" => splitlines_from (cur +:+ String c1 "") s1
        end
  end.

Definition splitlines (s : string) : list string := splitlines_from "" s.

(** The characters [str.strip()] removes, as UTF-8 byte sequences:
    U+0009..U+000D, U+001C..U+0020, U+0085, U+00A0, U+1680,
    U+2000..U+200A, U+2028, U+2029, U+202F, U+205F, U+3000. *)
Definition whitespace : list (list nat) :=
  [ [9]; [10]; [11]; [12]; [13]; [28]; [29]; [30]; [31]; [32];
    [194; 133]; [194; 160]; [225; 154; 128];
    [226; 128; 128]; [226; 128; 129]; [226; 128; 130]; [226; 128; 131];
    [226; 128; 132]; [226; 128; 133]; [226; 128; 134]; [226; 128; 135];
    [226; 128; 136]; [226; 128; 137]; [226; 128; 138];
    [226; 128; 168]; [226; 128; 169]; [226; 128; 175];
    [226; 129; 159]; [227; 128; 128] ].

Fixpoint drop_bytes (bs : list nat) (l : list ascii) : option (list ascii) :=
  match bs, l with
  | [], _ => Some l
  | b :: bs', c :: l' => if is_byte c b then drop_bytes bs' l' else None
  | _ :: _, [] => None
  end.

Definition drop_one (ws : list (list nat)) (l : list ascii) : option (list ascii) :=
  list_find (λ r : option (list ascii), is_Some r) ((λ bs, drop_bytes bs l) <$> ws)
    ≫= λ p, p.2.

(** Remove whitespace characters from the front; every round removes at
    least one byte, so [length l] rounds are enough. *)
Fixpoint lstrip_bytes (fuel : nat) (ws : list (list nat)) (l : list ascii) : list ascii :=
  match fuel with
  | 0 => l
  | S fuel' =>
      match drop_one ws l with
      | Some l' => lstrip_bytes fuel' ws l'
      | None => l
      end
  end.

(** [s.strip()]: leading whitespace, then trailing whitespace (read on
    the reversed bytes, against the reversed encodings). *)
Definition strip (s : string) : string :=
  let l := list_ascii_of_string s in
  let l1 := lstrip_bytes (length l) whitespace l in
  let r1 := lstrip_bytes (length l1) (reverse <$> whitespace) (reverse l1) in
  string_of_list_ascii (reverse r1).

(** [s.startswith(p)]. *)
Definition startswith (p s : string) : bool := String.prefix p s.

End PyStr.

(** ** Exceptions and results

    An exception is its class and the text [str(e)].  The script reads the
    text only of exceptions raised by the outside world; exceptions raised
    by the script's own operations ([raise_]) carry an empty text, since no
    handler of the script catches them: they leave [main] as a traceback,
    which is outside the model. *)

Inductive exn_class :=
| CalledProcessError | JSONDecodeError | KeyError
| AttributeError | TypeError | ValueError | IndexError
| OSError | OtherException.

#[global] Instance exn_class_eq_dec : EqDecision exn_class.
Proof. solve_decision. Defined.

Record exn := Exn { exn_cls : exn_class; exn_str : string }.

Inductive result (A : Type) :=
| Returned (a : A)
| Raised (e : exn).
Arguments Returned {A} a.
Arguments Raised {A} e.

Definition raise_ {A} (c : exn_class) : result A := Raised (Exn c "").

Definition raises {A} (c : exn_class) (r : result A) : Prop :=
  ∃ e, r = Raised e ∧ exn_cls e = c.

(** ** Decoded JSON

    What [json.loads] returns.  A JSON object is the list of its items, read
    by first match; floats are IEEE values of the Standard Library's
    [spec_float]. *)

Inductive json :=
| JNull
| JBool (b : bool)
| JInt (n : Z)
| JFloat (f : spec_float)
| JStr (s : string)
| JList (l : list json)
| JDict (d : list (string * json)).

Module Py.

(** [bool(v)]: the truth value the [if] statement tests. *)
Definition truthy (v : json) : bool :=
  match v with
  | JNull => false
  | JBool b => b
  | JInt n => negb (n =? 0)%Z
  | JFloat f => match f with S754_zero _ => false | _ => true end
  | JStr s => negb (String.eqb s "")
  | JList l => match l with [] => false | _ => true end
  | JDict d => match d with [] => false | _ => true end
  end.

Fixpoint dict_get (d : list (string * json)) (k : string) (dflt : json) : json :=
  match d with
  | [] => dflt
  | (k', v) :: d' => if decide (k' = k) then v else dict_get d' k dflt
  end.

(** [v.get(k, dflt)]: only a dict has the method. *)
Definition get (v : json) (k : string) (dflt : json) : result json :=
  match v with
  | JDict d => Returned (dict_get d k dflt)
  | _ => raise_ AttributeError
  end.

(** The characters of a string: a new character starts at every byte
    that is not a UTF-8 continuation byte (10xxxxxx). *)
Fixpoint chars (s : string) : list string :=
  match s with
  | "" => []
  | String c s' =>
      match chars s' with
      | ch :: chs =>
          match s' with
          | String c' _ =>
              if (128 <=? PyStr.byte c')%nat && (PyStr.byte c' <? 192)%nat
              then String c ch :: chs
              else String c "" :: ch :: chs
          | "" => String c "" :: ch :: chs
          end
      | [] => [String c ""]
      end
  end.

(** The elements that [enumerate(a + b)] walks.  Two lists concatenate,
    two strings concatenate and are walked character by character; the
    sum of two numbers is a number, which is not iterable ([TypeError];
    an integer too large for a float sum raises [OverflowError] instead,
    which propagates the same way and is not told apart here); every
    other pair has no [+] ([TypeError]). *)
Definition add_iter (a b : json) : result (list json) :=
  match a, b with
  | JList l1, JList l2 => Returned (l1 ++ l2)
  | JStr s1, JStr s2 => Returned (JStr <$> chars (s1 +:+ s2))
  | _, _ => raise_ TypeError
  end.

End Py.

(** ** Dictionary keys

    [tap_map] is keyed by whatever the [tap] field holds.  Python identifies
    keys by [==] (and hash): [None]; numbers by value, so that [True], [1]
    and [1.0] are one key; strings by content.  Lists and dicts are
    unhashable.  [pykey] is the normal form: an integer, or a non-integral
    dyadic [±m / 2^e] with [m] odd, an infinity, NaN ([json] keeps one NaN
    object, which a dict finds by identity), or a string. *)

Inductive pykey :=
| KNone
| KInt (n : Z)
| KDyadic (neg : bool) (m : positive) (e : positive)
| KInf (neg : bool)
| KNan
| KStr (s : string).

#[global] Instance pykey_eq_dec : EqDecision pykey.
Proof. solve_decision. Defined.

#[global] Instance pykey_countable : Countable pykey.
Proof.
  refine (inj_countable'
    (λ k : pykey, match k with
          | KNone => inl (inl ())
          | KInt n => inl (inr n)
          | KDyadic s m e => inr (inl (s, m, e))
          | KInf s => inr (inr (inl s))
          | KNan => inr (inr (inr (inl ())))
          | KStr s => inr (inr (inr (inr s)))
          end)
    (λ x : (unit + Z) + ((bool * positive * positive) + (bool + (unit + string))),
       match x with
       | inl (inl _) => KNone
       | inl (inr n) => KInt n
       | inr (inl (s, m, e)) => KDyadic s m e
       | inr (inr (inl s)) => KInf s
       | inr (inr (inr (inl _))) => KNan
       | inr (inr (inr (inr s))) => KStr s
       end) _).
  by intros [].
Defined.

Module Key.

Definition signed (neg : bool) (m : positive) : Z :=
  if neg then Z.neg m else Z.pos m.

(** [±m / 2^e] in lowest terms. *)
Fixpoint dyadic (neg : bool) (m : positive) (e : positive) : pykey :=
  match m with
  | xO m' =>
      if decide (e = 1%positive) then KInt (signed neg m')
      else dyadic neg m' (Pos.pred e)
  | _ => KDyadic neg m e
  end.

Definition of_float (f : spec_float) : pykey :=
  match f with
  | S754_zero _ => KInt 0
  | S754_infinity s => KInf s
  | S754_nan => KNan
  | S754_finite s m e =>
      match e with
      | Zneg e' => dyadic s m e'
      | _ => KInt (signed s m * 2 ^ e)
      end
  end.

(** [hash(v)] succeeds, and the key [v] is. *)
Definition of_json (v : json) : result pykey :=
  match v with
  | JNull => Returned KNone
  | JBool b => Returned (KInt (if b then 1 else 0))
  | JInt n => Returned (KInt n)
  | JFloat f => Returned (of_float f)
  | JStr s => Returned (KStr s)
  | JList _ | JDict _ => raise_ TypeError
  end.

End Key.

(** ** The outside world and the monad of the script *)

Inductive event :=
| Subprocess (cmd : list string)
| UrlOpen (url : string)
| Print (text : string).

(** What the three external calls do.  The subprocess and the network may
    answer differently at each call, so they read the trace so far.
    - [subprocess_run h cmd]: [subprocess.run(cmd, capture_output=True,
      text=True, check=True)], the decoded standard output, or the exception
      raised ([CalledProcessError] on a non-zero exit).
    - [json_loads s]: [json.loads(s)].
    - [urlopen_head h url]: the [status] of the response to the HEAD request
      [urlopen(Request(url, method='HEAD'), timeout=5)], or the exception
      raised. *)
Record World := {
  subprocess_run : list event → list string → result string;
  json_loads : string → result json;
  urlopen_head : list event → string → result Z
}.

Definition M (A : Type) : Type := list event → list event * result A.

Definition ret {A} (a : A) : M A := λ h, (h, Returned a).

Definition bind {A B} (m : M A) (k : A → M B) : M B :=
  λ h, match m h with
       | (h', Returned a) => k a h'
       | (h', Raised e) => (h', Raised e)
       end.

Definition raise {A} (e : exn) : M A := λ h, (h, Raised e).

Definition lift {A} (r : result A) : M A := λ h, (h, r).

(** The outcome of a [try] body, handed to the [except] clauses. *)
Definition try_ {A} (m : M A) : M (result A) :=
  λ h, let '(h', r) := m h in (h', Returned r).

Definition emit (e : event) : M unit := λ h, (h ++ [e], Returned tt).

Definition print (text : string) : M unit := emit (Print text).

Declare Scope script_scope.
Notation "x ← y ; z" := (bind y (λ x, z))
  (at level 20, y at level 100, z at level 200, only parsing) : script_scope.
Notation "' x ← y ; z" := (bind y (λ x, z))
  (at level 20, x pattern, y at level 100, z at level 200, only parsing) : script_scope.
Notation "x ;; z" := (bind x (λ _, z))
  (at level 100, z at level 200, only parsing, right associativity) : script_scope.
Local Open Scope script_scope.

(** [for x in l: body x], stopping at the first exception. *)
Fixpoint for_each {A} (l : list A) (body : A → M unit) : M unit :=
  match l with
  | [] => ret tt
  | x :: l' => body x ;; for_each l' body
  end.

Definition printed (h : list event) : list string :=
  omap (λ e, match e with Print t => Some t | _ => None end) h.

Definition subprocess_calls (h : list event) : list (list string) :=
  omap (λ e, match e with Subprocess c => Some c | _ => None end) h.

(** The value [check_url_reachable] returns: [True], [False], or a
    diagnostic string. *)
Inductive reach :=
| RBool (b : bool)
| RStr (s : string).

#[global] Instance reach_eq_dec : EqDecision reach.
Proof. solve_decision. Defined.

(** [str(result)], as the f-string formats it. *)
Definition reach_str (r : reach) : string :=
  match r with
  | RBool true => "True"
  | RBool false => "False"
  | RStr s => s
  end.

Definition core_tap : string := "homebrew/core".

(** ** The script *)

(** [infer_tap_url] (lines 85-88): the unpacking of [split] into two names
    raises [ValueError] unless there are exactly two segments. *)
Definition infer_tap_url (tap_name : string) : result string :=
  match PyStr.split "/" tap_name with
  | [user; repo] =>
      Returned ("https://github.com/" +:+ user +:+ "/homebrew-" +:+ repo)
  | _ => raise_ ValueError
  end.

(** [merge_formulae_and_casks] (lines 61-72): one entry for every tap of the
    set [set(formula_map) | set(cask_map)]. *)
Definition merge_formulae_and_casks
    (formula_map cask_map : gmap pykey (list string))
    : gmap pykey (gmap string (list string)) :=
  let all_taps : gset pykey := dom formula_map ∪ dom cask_map in
  set_fold (λ tap merged,
      let formulas := default [] (formula_map !! tap) in
      let casks := default [] (cask_map !! tap) in
      <[tap := {[ "formulae" := formulas; "casks" := casks ]}]> merged)
    ∅ all_taps.

(** [tap_map[tap].append(item)] on a [defaultdict(list)]. *)
Definition append_to (tap : pykey) (item : string)
    (tap_map : gmap pykey (list string)) : gmap pykey (list string) :=
  <[tap := default [] (tap_map !! tap) ++ [item]]> tap_map.

(** The loop of lines 46-52 from index [idx] on.  It returns the map as the
    loop left it, and the exception that stopped it, if any. *)
Fixpoint group_loop (items : list string) (idx : nat) (all_info : list json)
    (tap_map : gmap pykey (list string))
    : gmap pykey (list string) * result unit :=
  match all_info with
  | [] => (tap_map, Returned tt)
  | info :: rest =>
      match Py.get info "installed" (JList []) with
      | Raised e => (tap_map, Raised e)
      | Returned installed =>
          if Py.truthy installed && (idx <? length items)%nat then
            match Py.get info "tap" (JStr core_tap) with
            | Raised e => (tap_map, Raised e)
            | Returned tap =>
                match Key.of_json tap, items !! idx with
                | Raised e, _ => (tap_map, Raised e)
                | Returned k, Some item =>
                    group_loop items (S idx) rest (append_to k item tap_map)
                | Returned _, None => (tap_map, raise_ IndexError)
                end
            end
          else group_loop items (S idx) rest tap_map
      end
  end.

(** Lines 41-43, and the sequence [enumerate] walks. *)
Definition all_info_of (info_data : json) : result (list json) :=
  match Py.get info_data "formulae" (JList []) with
  | Raised e => Raised e
  | Returned formulae_info =>
      match Py.get info_data "casks" (JList []) with
      | Raised e => Raised e
      | Returned casks_info => Py.add_iter formulae_info casks_info
      end
  end.

(** Lines 41-52: the part of the [try] body that follows [json.loads]. *)
Definition group_records (items : list string) (info_data : json)
    (tap_map : gmap pykey (list string))
    : gmap pykey (list string) * result unit :=
  match all_info_of info_data with
  | Raised e => (tap_map, Raised e)
  | Returned all_info => group_loop items 0 all_info tap_map
  end.

(** The classes of [except (subprocess.CalledProcessError,
    json.JSONDecodeError, KeyError)]. *)
Definition group_handles (c : exn_class) : bool :=
  bool_decide (c = CalledProcessError) || bool_decide (c = JSONDecodeError)
  || bool_decide (c = KeyError).

Section Script.

Context (W : World).

Definition run_subprocess (cmd : list string) : M string :=
  λ h, (h ++ [Subprocess cmd], subprocess_run W h cmd).

Definition urlopen (url : string) : M Z :=
  λ h, (h ++ [UrlOpen url], urlopen_head W h url).

(** [get_homebrew_taps] (lines 6-15). *)
Definition get_homebrew_taps : M (list string) :=
  r ← try_ (run_subprocess ["brew"; "tap"]);
  match r with
  | Returned stdout =>
      let taps := PyStr.splitlines (PyStr.strip stdout) in
      ret (merge_sort String.le taps)
  | Raised e =>
      if decide (exn_cls e = CalledProcessError) then
        print ("Error getting taps: " +:+ exn_str e) ;;
        ret []
      else raise e
  end.

(** [get_installed_items] (lines 17-24). *)
Definition get_installed_items (item_type : string) : M (list string) :=
  r ← try_ (run_subprocess ["brew"; "list"; "--" +:+ item_type]);
  match r with
  | Returned stdout => ret (PyStr.splitlines (PyStr.strip stdout))
  | Raised e =>
      if decide (exn_cls e = CalledProcessError) then
        print ("Error getting installed " +:+ item_type +:+ ": " +:+ exn_str e) ;;
        ret []
      else raise e
  end.

(** The [try] body of [group_items_by_tap] (lines 34-52): the map it has
    built and how it ended. *)
Definition group_try (items : list string) (tap_map : gmap pykey (list string))
    : M (gmap pykey (list string) * result unit) :=
  r ← try_ (stdout ← run_subprocess (["brew"; "info"; "--json=v2"] ++ items);
            lift (json_loads W stdout));
  match r with
  | Raised e => ret (tap_map, Raised e)
  | Returned info_data => ret (group_records items info_data tap_map)
  end.

(** [group_items_by_tap] (lines 26-59). *)
Definition group_items_by_tap (items : list string)
    : M (gmap pykey (list string)) :=
  let tap_map : gmap pykey (list string) := ∅ in
  match items with
  | [] => ret tap_map
  | _ :: _ =>
      '(tap_map, outcome) ← group_try items tap_map;
      match outcome with
      | Returned _ => ret tap_map
      | Raised e =>
          if group_handles (exn_cls e) then
            print ("Error grouping items: " +:+ exn_str e) ;;
            ret (foldl (λ tm item, append_to (KStr core_tap) item tm) tap_map items)
          else raise e
      end
  end.

(** [check_url_reachable] (lines 74-83).  [except Exception] catches every
    exception of the request. *)
Definition check_url_reachable (url : string) : M reach :=
  r ← try_ (urlopen url);
  match r with
  | Returned status => ret (RBool (status =? 200)%Z)
  | Raised e =>
      if decide (exn_str e = "") then ret (RStr ("Error: " +:+ "Unknown error"))
      else
        match PyStr.splitlines (exn_str e) with
        | error_msg :: _ => ret (RStr ("Error: " +:+ error_msg))
        | [] => lift (raise_ IndexError)
        end
  end.

(** [check_tap] (lines 90-105). *)
Definition check_tap (tap : string) (installed : gmap string (list string))
    : M unit :=
  url ← lift (infer_tap_url tap);
  result ← check_url_reachable url;
  (if decide (result = RBool true) then
     print ("[OK] " +:+ tap +:+ " (" +:+ url +:+ ") is reachable")
   else
     print ("[ERROR] Cannot reach " +:+ tap +:+ " (" +:+ url +:+ "): "
            +:+ reach_str result)) ;;
  let formulas := default [] (installed !! "formulae") in
  let casks := default [] (installed !! "casks") in
  (if formulas is [] then ret tt
   else print (" ↳ Formulae: " +:+ PyStr.join ", " formulas)) ;;
  (if casks is [] then ret tt
   else print (" ↳ Casks: " +:+ PyStr.join ", " casks)) ;;
  match formulas, casks with
  | [], [] => print (" ↳ No formulae or casks installed from " +:+ tap)
  | _, _ => ret tt
  end.

(** Lines 109-111 of [main]: the default taps first, duplicates removed
    through a set, then sorted. *)
Definition main_taps (custom_taps : list string) : list string :=
  let taps := ["homebrew/core"; "homebrew/cask"] ++ custom_taps in
  let taps := elements (list_to_set taps : gset string) in
  merge_sort String.le taps.

(** Lines 117-122 of [main]. *)
Definition main_report (taps : list string)
    (installed_map : gmap pykey (gmap string (list string))) : M unit :=
  match taps with
  | [] => print "No taps found."
  | _ :: _ =>
      print ("Found " +:+ pretty (length taps)
             +:+ " taps. Checking accessibility and usage..." +:+ String "010" "") ;;
      for_each taps (λ tap,
        check_tap tap (default ∅ (installed_map !! KStr tap)))
  end.

(** [main] (lines 107-122). *)
Definition main : M unit :=
  custom_taps ← get_homebrew_taps;
  let taps := main_taps custom_taps in
  formulae ← get_installed_items "formula";
  casks ← get_installed_items "cask";
  formula_map ← group_items_by_tap formulae;
  cask_map ← group_items_by_tap casks;
  let installed_map := merge_formulae_and_casks formula_map cask_map in
  main_report taps installed_map.

End Script.

(** * Vocabulary of the statements *)

(** A tap name with exactly one [/]. *)
Definition tap_url_ok (tap : string) : Prop := PyStr.count "/" tap = 1.

(** The status line of [check_tap] (lines 94-97). *)
Definition status_line (tap url : string) (r : reach) : string :=
  if decide (r = RBool true) then
    "[OK] " +:+ tap +:+ " (" +:+ url +:+ ") is reachable"
  else
    "[ERROR] Cannot reach " +:+ tap +:+ " (" +:+ url +:+ "): " +:+ reach_str r.

(** The lines that follow it (lines 98-105): the formulae and the casks
    attributed to the tap, each kind on a line of its own when there is
    any, or the note that there is none of either. *)
Definition item_lines (tap : string) (installed : gmap string (list string))
    : list string :=
  match default [] (installed !! "formulae"), default [] (installed !! "casks") with
  | [], [] => [" ↳ No formulae or casks installed from " +:+ tap]
  | [], casks => [" ↳ Casks: " +:+ PyStr.join ", " casks]
  | formulas, [] => [" ↳ Formulae: " +:+ PyStr.join ", " formulas]
  | formulas, casks =>
      [" ↳ Formulae: " +:+ PyStr.join ", " formulas;
       " ↳ Casks: " +:+ PyStr.join ", " casks]
  end.

Definition count_starting (p : string) (lines : list string) : nat :=
  length (filter (λ l, PyStr.startswith p l = true) lines).

Definition report_header (taps : list string) : string :=
  "Found " +:+ pretty (length taps)
  +:+ " taps. Checking accessibility and usage..." +:+ String "010" "".

(** [x] is in the list of tap [k]. *)
Definition attributed (tap_map : gmap pykey (list string)) (x : string) (k : pykey)
    : Prop :=
  ∃ l, tap_map !! k = Some l ∧ x ∈ l.

(** All the names of a grouping, tap after tap. *)
Definition all_items (tap_map : gmap pykey (list string)) : list string :=
  mjoin ((map_to_list tap_map).*2).

(** The tap a metadata record attributes its item to: the tap the record
    names, [homebrew/core] when it has no [tap] field, and this only if the
    record confirms that the item is installed. *)
Definition confirmed_tap (info : json) : option pykey :=
  match info with
  | JDict d =>
      if Py.truthy (Py.dict_get d "installed" (JList [])) then
        match Key.of_json (Py.dict_get d "tap" (JStr core_tap)) with
        | Returned k => Some k
        | Raised _ => None
        end
      else None
  | _ => None
  end.

(** The URLs probed, in order. *)
Definition url_probes (h : list event) : list string :=
  omap (λ e, match e with UrlOpen u => Some u | _ => None end) h.

(** The URL of a tap name, for the names that have one. *)
Definition tap_url (tap : string) : string :=
  match infer_tap_url tap with
  | Returned url => url
  | Raised _ => ""
  end.

(** A string without the two line terminators LF and CR. *)
Definition one_line (s : string) : Prop :=
  PyStr.count "010"%char s = 0 ∧ PyStr.count "013"%char s = 0.

(** * Concrete runs *)

Module Scenario.

Definition quoted (s : string) : string :=
  String "034"%char s +:+ String "034"%char "".

Definition newline : string := String "010"%char "".

Definition not_json : exn :=
  Exn JSONDecodeError "Expecting value: line 1 column 1 (char 0)".

Definition brew_failed : exn :=
  Exn CalledProcessError "Command 'brew' returned non-zero exit status 1.".

Definition not_found : exn := Exn OSError "HTTP Error 404: Not Found".

Fixpoint assoc {A B} `{EqDecision A} (k : A) (l : list (A * B)) : option B :=
  match l with
  | [] => None
  | (k', v) :: l' => if decide (k' = k) then Some v else assoc k l'
  end.

(** A world given by tables: the output of each [brew] command that
    succeeds (every other command exits with status 1), the value of each
    text that is JSON (every other text is rejected) and the probe. *)
Definition world (outputs : list (list string * string))
    (documents : list (string * json)) (probe : string → result Z) : World :=
  {| subprocess_run := λ _ cmd,
       match assoc cmd outputs with
       | Some stdout => Returned stdout
       | None => Raised brew_failed
       end;
     json_loads := λ s,
       match assoc s documents with
       | Some v => Returned v
       | None => Raised not_json
       end;
     urlopen_head := λ _ url, probe url |}.

(** The probe answers 200 for the two default taps and 404 (an
    [HTTPError]) for every other URL. *)
Definition probe_defaults (url : string) : result Z :=
  if decide (url = "https://github.com/homebrew/homebrew-core") then Returned 200%Z
  else if decide (url = "https://github.com/homebrew/homebrew-cask") then Returned 200%Z
  else Raised not_found.

(** [brew info --json=v2 wget] answers with one formula record whose
    [installed] list is empty. *)
Definition stdout_not_installed : string :=
  "{" +:+ quoted "formulae" +:+ ": [{" +:+ quoted "name" +:+ ": "
  +:+ quoted "wget" +:+ ", " +:+ quoted "tap" +:+ ": "
  +:+ quoted "homebrew/core" +:+ ", " +:+ quoted "installed"
  +:+ ": []}], " +:+ quoted "casks" +:+ ": []}".

Definition doc_not_installed : json :=
  JDict [("formulae",
          JList [JDict [("name", JStr "wget");
                        ("tap", JStr "homebrew/core");
                        ("installed", JList [])]]);
         ("casks", JList [])].

Definition world_not_installed : World :=
  world [(["brew"; "info"; "--json=v2"; "wget"], stdout_not_installed)]
        [(stdout_not_installed, doc_not_installed)]
        probe_defaults.

(** [brew info --json=v2 wget mytool] answers with two formula records,
    the first without a [tap] field, the second from [alice/tools]. *)
Definition stdout_two_taps : string :=
  "{" +:+ quoted "formulae" +:+ ": [{" +:+ quoted "name" +:+ ": "
  +:+ quoted "wget" +:+ ", " +:+ quoted "installed" +:+ ": [{"
  +:+ quoted "version" +:+ ": " +:+ quoted "1.24.5" +:+ "}]}, {"
  +:+ quoted "name" +:+ ": " +:+ quoted "mytool" +:+ ", "
  +:+ quoted "tap" +:+ ": " +:+ quoted "alice/tools" +:+ ", "
  +:+ quoted "installed" +:+ ": [{" +:+ quoted "version" +:+ ": "
  +:+ quoted "0.3" +:+ "}]}], " +:+ quoted "casks" +:+ ": []}".

Definition doc_two_taps : json :=
  JDict [("formulae",
          JList [JDict [("name", JStr "wget");
                        ("installed", JList [JDict [("version", JStr "1.24.5")]])];
                 JDict [("name", JStr "mytool");
                        ("tap", JStr "alice/tools");
                        ("installed", JList [JDict [("version", JStr "0.3")]])]]);
         ("casks", JList [])].

(** One tap besides the defaults, two formulae, no cask. *)
Definition world_two_taps : World :=
  world [(["brew"; "tap"], "alice/tools" +:+ newline);
         (["brew"; "list"; "--formula"], "wget" +:+ newline +:+ "mytool" +:+ newline);
         (["brew"; "list"; "--cask"], "");
         (["brew"; "info"; "--json=v2"; "wget"; "mytool"], stdout_two_taps)]
        [(stdout_two_taps, doc_two_taps)]
        probe_defaults.

(** [brew info] prints a JSON document of another shape: an object
    without the two arrays, or an array. *)
Definition world_empty_object : World :=
  world [(["brew"; "info"; "--json=v2"; "wget"], "{}")]
        [("{}", JDict [])] probe_defaults.

Definition world_array : World :=
  world [(["brew"; "info"; "--json=v2"; "wget"], "[]")]
        [("[]", JList [])] probe_defaults.

(** Every [brew] command exits with status 1. *)
Definition world_brew_fails : World := world [] [] probe_defaults.

(** The server answers every HEAD request with 204 No Content. *)
Definition world_no_content : World := world [] [] (λ _, Returned 204%Z).

Definition two_taps_map : gmap pykey (list string) :=
  {[ KStr "homebrew/core" := ["wget"]; KStr "alice/tools" := ["mytool"] ]}.

(** [brew] is not installed: starting it raises [FileNotFoundError], an
    [OSError]. *)
Definition no_brew : exn :=
  Exn OSError "[Errno 2] No such file or directory: 'brew'".

Definition world_no_brew : World :=
  {| subprocess_run := λ _ _, Raised no_brew;
     json_loads := λ _, Raised not_json;
     urlopen_head := λ _ url, probe_defaults url |}.

(** [brew tap] lists two taps, the later one first. *)
Definition stdout_unsorted_taps : string :=
  "zed/extras" +:+ newline +:+ "alice/tools" +:+ newline.

Definition world_unsorted_taps : World :=
  world [(["brew"; "tap"], stdout_unsorted_taps)] [] probe_defaults.

End Scenario.

(** * Properties *)

(** Unfolding of the monad's operations, to run a function of the script
    on a trace. *)
Ltac unfold_monad :=
  unfold bind, try_, run_subprocess, urlopen, lift, ret, raise, print, emit.

(** ** Evaluations *)

Example split_two : PyStr.split "/" "alice/tools" = ["alice"; "tools"].
Proof. reflexivity. Qed.
Example split_none : PyStr.split "/" "badtap" = ["badtap"].
Proof. reflexivity. Qed.
Example split_empty : PyStr.split "/" "" = [""].
Proof. reflexivity. Qed.
Example split_edges : PyStr.split "/" "/a//" = [""; "a"; ""; ""].
Proof. reflexivity. Qed.
Example splitlines_basic :
  PyStr.splitlines (PyStr.strip (String "010" "homebrew/cask" +:+ String "010" "alice/tools" +:+ String "013" (String "010" " ")))
  = ["homebrew/cask"; "alice/tools"].
Proof. vm_compute. reflexivity. Qed.
Example splitlines_blank : PyStr.splitlines (String "010" "") = [""].
Proof. reflexivity. Qed.
Example splitlines_none : PyStr.splitlines "" = [].
Proof. reflexivity. Qed.

Example key_true_is_one : Key.of_json (JBool true) = Key.of_json (JInt 1).
Proof. reflexivity. Qed.
Example key_float_one : Key.of_json (JFloat (S754_finite false 4503599627370496 (-52))) = Returned (KInt 1).
Proof. vm_compute. reflexivity. Qed.
Example key_float_half : Key.of_json (JFloat (S754_finite false 4503599627370496 (-53))) = Returned (KDyadic false 1 1).
Proof. vm_compute. reflexivity. Qed.
Example chars_utf8 : Py.chars "a↳b" = ["a"; "↳"; "b"].
Proof. vm_compute. reflexivity. Qed.

(** A whole run: [brew tap] lists [alice/tools], two formulae are
    installed, and the probe fails for [alice/tools] only. *)
Example main_run :
  let '(h, r) := main Scenario.world_two_taps [] in
  r = Returned tt
  ∧ subprocess_calls h
    = [["brew"; "tap"]; ["brew"; "list"; "--formula"]; ["brew"; "list"; "--cask"];
       ["brew"; "info"; "--json=v2"; "wget"; "mytool"]]
  ∧ printed h
    = ["Found 3 taps. Checking accessibility and usage..." +:+ Scenario.newline;
       "[ERROR] Cannot reach alice/tools (https://github.com/alice/homebrew-tools): Error: HTTP Error 404: Not Found";
       " ↳ Formulae: mytool";
       "[OK] homebrew/cask (https://github.com/homebrew/homebrew-cask) is reachable";
       " ↳ No formulae or casks installed from homebrew/cask";
       "[OK] homebrew/core (https://github.com/homebrew/homebrew-core) is reachable";
       " ↳ Formulae: wget"].
Proof. by vm_compute. Qed.

(** The handler of [group_items_by_tap] is not reached by a document that
    is JSON but has another shape: an object without the two arrays gives
    the empty grouping, and an array has no [get] ([AttributeError], which
    the handler does not name). *)
Example empty_object_run :
  group_items_by_tap Scenario.world_empty_object ["wget"] []
  = ([Subprocess ["brew"; "info"; "--json=v2"; "wget"]], Returned ∅).
Proof. by vm_compute. Qed.

Example array_run :
  group_items_by_tap Scenario.world_array ["wget"] []
  = ([Subprocess ["brew"; "info"; "--json=v2"; "wget"]], raise_ AttributeError).
Proof. by vm_compute. Qed.

(** ** Strings *)

Section split_lemmas.

Variable sep : ascii.

Lemma split_no_sep (s : string) :
  PyStr.count sep s = 0 → PyStr.split sep s = [s].
Proof.
  induction s as [|c s IH]; simpl; [done|].
  destruct (decide (c = sep)) as [->|Hc]; [done|].
  intros Hs. by rewrite IH.
Qed.

Lemma split_app (u r : string) :
  PyStr.count sep u = 0 →
  PyStr.split sep (u +:+ String sep r) = u :: PyStr.split sep r.
Proof.
  induction u as [|c u IH]; simpl.
  - intros _. by rewrite decide_True.
  - destruct (decide (c = sep)) as [->|Hc]; [done|].
    intros Hu. by rewrite IH.
Qed.

Lemma length_split (s : string) :
  length (PyStr.split sep s) = S (PyStr.count sep s).
Proof.
  induction s as [|c s IH]; simpl; [done|].
  destruct (decide (c = sep)) as [->|Hc]; simpl; [by rewrite IH|].
  destruct (PyStr.split sep s); simpl in *; lia.
Qed.

End split_lemmas.

Lemma splitlines_from_nonempty (s cur : string) :
  cur ≠ "" ∨ s ≠ "" → PyStr.splitlines_from cur s ≠ [].
Proof.
  revert cur. induction s as [|c1 s1 IH]; intros cur Hne; simpl.
  - destruct Hne as [Hne|Hne]; [|done]. by rewrite decide_False.
  - assert (Hgrow : PyStr.splitlines_from (cur +:+ String c1 "") s1 ≠ []).
    { apply IH. left. by destruct cur. }
    repeat (first [ done | case_match ]).
Qed.

Lemma splitlines_nonempty (s : string) :
  s ≠ "" → PyStr.splitlines s ≠ [].
Proof. intros Hs. apply splitlines_from_nonempty. by right. Qed.

(** ** [infer_tap_url] *)

(** C2: a tap name made of an owner and a repository, each without [/],
    joined by one [/], is mapped to
    [https://github.com/<owner>/homebrew-<repo>].  (The two segments need
    not even be non-empty for this.) *)
Theorem infer_tap_url_two_segments (owner repo : string) :
  PyStr.count "/" owner = 0 →
  PyStr.count "/" repo = 0 →
  infer_tap_url (owner +:+ "/" +:+ repo)
  = Returned ("https://github.com/" +:+ owner +:+ "/homebrew-" +:+ repo).
Proof.
  intros Ho Hr. unfold infer_tap_url.
  change (owner +:+ "/" +:+ repo) with (owner +:+ String "/" repo).
  by rewrite split_app, (split_no_sep _ repo).
Qed.

(** C2 at [alice/tools]. *)
Lemma infer_tap_url_two_segments_witness :
  infer_tap_url "alice/tools" = Returned "https://github.com/alice/homebrew-tools".
Proof.
  exact (infer_tap_url_two_segments "alice" "tools" eq_refl eq_refl).
Defined.

Lemma infer_tap_url_raises (tap : string) :
  PyStr.count "/" tap ≠ 1 → infer_tap_url tap = raise_ ValueError.
Proof.
  intros Hn. unfold infer_tap_url.
  pose proof (length_split "/" tap) as Hlen.
  destruct (PyStr.split "/" tap) as [|a [|b [|c l]]]; simpl in Hlen; try done.
  lia.
Qed.

(** ** [merge_formulae_and_casks] *)

(** C6: the merged mapping has exactly the taps of either input, and the
    entry of a tap holds that tap's formula list and cask list as they are
    in the inputs, the empty list standing in where an input lacks the tap.
    The function is total and pure by its type. *)
Theorem merge_formulae_and_casks_spec
    (formula_map cask_map : gmap pykey (list string)) :
  dom (merge_formulae_and_casks formula_map cask_map)
  = dom formula_map ∪ dom cask_map
  ∧ ∀ tap : pykey,
      merge_formulae_and_casks formula_map cask_map !! tap
      = if decide (tap ∈ dom formula_map ∪ dom cask_map)
        then Some {[ "formulae" := default [] (formula_map !! tap);
                     "casks" := default [] (cask_map !! tap) ]}
        else None.
Proof.
  pose (P := λ (merged : gmap pykey (gmap string (list string)))
                (X : gset pykey),
    dom merged = X
    ∧ ∀ tap : pykey,
        merged !! tap
        = if decide (tap ∈ X)
          then Some ({[ "formulae" := default [] (formula_map !! tap);
                        "casks" := default [] (cask_map !! tap) ]}
                     : gmap string (list string))
          else None).
  enough (P (merge_formulae_and_casks formula_map cask_map)
            (dom formula_map ∪ dom cask_map)) by done.
  unfold merge_formulae_and_casks. apply (set_fold_ind_L P); unfold P.
  - split; [by rewrite dom_empty_L|].
    intros tap. rewrite lookup_empty. by rewrite decide_False by set_solver.
  - intros tap X merged Hfresh [Hdom Hget]. split.
    + rewrite dom_insert_L. by rewrite Hdom.
    + intros tap'. destruct (decide (tap = tap')) as [<-|Hne].
      * rewrite lookup_insert_eq. by rewrite decide_True by set_solver.
      * rewrite lookup_insert_ne by done. rewrite Hget.
        destruct (decide (tap' ∈ X)) as [Hin|Hout],
                 (decide (tap' ∈ {[tap]} ∪ X)) as [Hin'|Hout']; try done.
        -- exfalso. apply Hout'. apply elem_of_union. by right.
        -- exfalso. apply elem_of_union in Hin' as [Heq%elem_of_singleton|Hin']; done.
Qed.

(** ** [group_items_by_tap]: the empty input and the fallback *)

(** C5: on an empty list [group_items_by_tap] returns the empty mapping
    at once: the trace is untouched, so no subprocess was started. *)
Theorem group_items_by_tap_empty (W : World) (h : list event) :
  group_items_by_tap W [] h = (h, Returned ∅)
  ∧ subprocess_calls (group_items_by_tap W [] h).1 = subprocess_calls h.
Proof. done. Qed.

Lemma foldl_append_to (k : pykey) (items : list string)
    (tap_map : gmap pykey (list string)) :
  items ≠ [] →
  foldl (λ tm item, append_to k item tm) tap_map items
  = <[k := default [] (tap_map !! k) ++ items]> tap_map.
Proof.
  revert tap_map. induction items as [|x items IH]; intros tap_map Hne; [done|].
  simpl. destruct items as [|y items].
  - done.
  - rewrite IH by done. unfold append_to.
    rewrite lookup_insert_eq, insert_insert_eq. simpl.
    by rewrite <-app_assoc.
Qed.


(** ** [check_tap] and the report loop *)

Lemma infer_tap_url_returns (tap : string) :
  tap_url_ok tap → ∃ url, infer_tap_url tap = Returned url.
Proof.
  unfold tap_url_ok, infer_tap_url. intros Hn.
  pose proof (length_split "/" tap) as Hlen. rewrite Hn in Hlen.
  destruct (PyStr.split "/" tap) as [|a [|b [|c l]]]; simpl in Hlen; try done.
  eauto.
Qed.

Lemma check_url_reachable_returns (W : World) (url : string) (h : list event) :
  ∃ r : reach,
    check_url_reachable W url h = (h ++ [UrlOpen url], Returned r)
    ∧ (r = RBool true ↔ urlopen_head W h url = Returned 200%Z).
Proof.
  unfold check_url_reachable. unfold_monad.
  destruct (urlopen_head W h url) as [status|e].
  - eexists. split; [done|]. split.
    + intros [= Hs]. by apply Z.eqb_eq in Hs as ->.
    + by intros [= ->].
  - destruct (decide (exn_str e = "")) as [He|He].
    + eexists. split; [done|]. split; intros [=].
    + pose proof (splitlines_nonempty _ He) as Hl.
      destruct (PyStr.splitlines (exn_str e)) as [|line rest]; [done|].
      eexists. split; [done|]. split; intros [=].
Qed.

Lemma check_tap_after (W : World) (tap url : string)
    (installed : gmap string (list string)) (h : list event) (r : reach) :
  infer_tap_url tap = Returned url →
  check_url_reachable W url h = (h ++ [UrlOpen url], Returned r) →
  check_tap W tap installed h
  = (h ++ UrlOpen url
       :: (Print <$> status_line tap url r :: item_lines tap installed),
     Returned tt).
Proof.
  intros Hurl Hrun.
  unfold check_tap, bind, lift. rewrite Hurl, Hrun.
  unfold status_line, item_lines, print, emit, ret.
  destruct (decide (r = RBool true));
    destruct (default [] (installed !! "formulae")),
             (default [] (installed !! "casks"));
    simpl; by rewrite <-?app_assoc.
Qed.

Lemma check_tap_run (W : World) (tap url : string)
    (installed : gmap string (list string)) (h : list event) :
  infer_tap_url tap = Returned url →
  ∃ r : reach,
    (r = RBool true ↔ urlopen_head W h url = Returned 200%Z)
    ∧ check_tap W tap installed h
      = (h ++ UrlOpen url
           :: (Print <$> status_line tap url r :: item_lines tap installed),
         Returned tt).
Proof.
  intros Hurl.
  destruct (check_url_reachable_returns W url h) as (r & Hrun & Hr).
  exists r. split; [done|]. by apply check_tap_after.
Qed.

(** C7, as amended: the result is [True] exactly for a response of status
    200; a response of any other status gives [False], with no diagnostic;
    an exception gives the string [Error: ] followed by the first line of
    its text, or by [Unknown error] when the text is empty.  The function
    never raises, and [check_tap] prints the [[ERROR]] status line for
    every result other than [True]. *)
Theorem check_url_reachable_spec (W : World) (url : string) (h : list event) :
  ∃ r : reach,
    check_url_reachable W url h = (h ++ [UrlOpen url], Returned r)
    ∧ (r = RBool true ↔ urlopen_head W h url = Returned 200%Z)
    ∧ match urlopen_head W h url with
      | Returned status => r = RBool (status =? 200)%Z
      | Raised e =>
          if decide (exn_str e = "") then r = RStr "Error: Unknown error"
          else ∃ line rest,
                 PyStr.splitlines (exn_str e) = line :: rest
                 ∧ r = RStr ("Error: " +:+ line)
      end
    ∧ ∀ tap installed,
        infer_tap_url tap = Returned url →
        check_tap W tap installed h
        = (h ++ UrlOpen url
             :: (Print <$> status_line tap url r :: item_lines tap installed),
           Returned tt).
Proof.
  destruct (check_url_reachable_returns W url h) as (r & Hrun & Hr).
  exists r. split; [done|]. split; [done|]. split.
  - revert Hrun. unfold check_url_reachable. unfold_monad.
    destruct (urlopen_head W h url) as [status|e].
    + by intros [= <-].
    + destruct (decide (exn_str e = "")) as [He|He].
      * by intros [= <-].
      * pose proof (splitlines_nonempty _ He) as Hl.
        destruct (PyStr.splitlines (exn_str e)) as [|line rest]; [done|].
        intros [= <-]. by exists line, rest.
  - intros tap installed Hurl. by apply check_tap_after.
Qed.

Lemma check_tap_malformed (W : World) (tap : string)
    (installed : gmap string (list string)) (h : list event) :
  PyStr.count "/" tap ≠ 1 →
  check_tap W tap installed h = (h, raise_ ValueError).
Proof.
  intros Hn. unfold check_tap, bind, lift.
  by rewrite infer_tap_url_raises.
Qed.

Lemma for_each_malformed (W : World) (tap : string) (taps : list string)
    (installed_map : gmap pykey (gmap string (list string))) (h : list event) :
  PyStr.count "/" tap ≠ 1 →
  tap ∈ taps →
  ∃ h',
    for_each taps (λ tap, check_tap W tap (default ∅ (installed_map !! KStr tap))) h
    = (h', raise_ ValueError).
Proof.
  intros Hbad Hin. revert h.
  induction taps as [|t taps IH]; intros h; [by apply elem_of_nil in Hin|].
  simpl. unfold bind at 1.
  destruct (decide (PyStr.count "/" t = 1)) as [Hok|Hnok].
  - destruct (infer_tap_url_returns t Hok) as [url Hurl].
    destruct (check_tap_run W t url (default ∅ (installed_map !! KStr t)) h Hurl)
      as (r & _ & ->).
    apply IH. apply elem_of_cons in Hin as [->|Hin]; [done|done].
  - rewrite check_tap_malformed by done. by eexists.
Qed.

Lemma elem_of_main_taps (custom_taps : list string) (t : string) :
  t ∈ main_taps custom_taps ↔ t ∈ ["homebrew/core"; "homebrew/cask"] ++ custom_taps.
Proof.
  unfold main_taps. rewrite merge_sort_Permutation.
  by rewrite elem_of_elements, elem_of_list_to_set.
Qed.

(** C3: a tap name whose number of [/] is not one makes [infer_tap_url]
    raise [ValueError]; [check_tap] lets it through without probing or
    printing anything; the report loop over a list with such a tap ends in
    that exception, and so does [main] when [brew tap] lists such a name. *)
Theorem malformed_tap_is_fatal (tap : string) :
  PyStr.count "/" tap ≠ 1 →
  raises ValueError (infer_tap_url tap)
  ∧ (∀ W installed h, check_tap W tap installed h = (h, raise_ ValueError))
  ∧ (∀ W taps installed_map h,
       tap ∈ taps →
       ∃ h', main_report W taps installed_map h = (h', raise_ ValueError))
  ∧ (∀ W h h1 custom_taps,
       get_homebrew_taps W h = (h1, Returned custom_taps) →
       tap ∈ custom_taps →
       ∃ h' e, main W h = (h', Raised e)).
Proof.
  intros Hbad.
  assert (Hreport : ∀ W taps installed_map h,
            tap ∈ taps →
            ∃ h', main_report W taps installed_map h = (h', raise_ ValueError)).
  { intros W taps installed_map h Hin. unfold main_report.
    destruct taps as [|t taps]; [by apply elem_of_nil in Hin|].
    unfold bind at 1, print, emit.
    apply (for_each_malformed W tap); done. }
  split; [|split; [|split]].
  - rewrite infer_tap_url_raises by done. by eexists.
  - intros. by apply check_tap_malformed.
  - done.
  - intros W h h1 custom_taps Hget Hin. unfold main, bind at 1. rewrite Hget.
    unfold bind at 1.
    destruct (get_installed_items W "formula" h1) as [h2 [formulae|e]]; [|by eauto].
    unfold bind at 1.
    destruct (get_installed_items W "cask" h2) as [h3 [casks|e]]; [|by eauto].
    unfold bind at 1.
    destruct (group_items_by_tap W formulae h3) as [h4 [formula_map|e]]; [|by eauto].
    unfold bind at 1.
    destruct (group_items_by_tap W casks h4) as [h5 [cask_map|e]]; [|by eauto].
    destruct (Hreport W (main_taps custom_taps)
                (merge_formulae_and_casks formula_map cask_map) h5) as [h' ->].
    + apply elem_of_main_taps. apply elem_of_app. by right.
    + by eauto.
Qed.

(** ** The tap list of [main] *)

(** C9: whatever [get_homebrew_taps] returns, the list [main] walks holds
    the two default taps, holds exactly the default and the listed names,
    has no duplicate and is sorted in the lexicographic order of strings.
    When [brew tap] fails, [get_homebrew_taps] reports it and returns the
    empty list, and the list of [main] is the two defaults. *)
Theorem main_taps_spec (custom_taps : list string) :
  "homebrew/core" ∈ main_taps custom_taps
  ∧ "homebrew/cask" ∈ main_taps custom_taps
  ∧ (∀ t, t ∈ main_taps custom_taps
          ↔ t = "homebrew/core" ∨ t = "homebrew/cask" ∨ t ∈ custom_taps)
  ∧ NoDup (main_taps custom_taps)
  ∧ StronglySorted String.le (main_taps custom_taps)
  ∧ (∀ W : World,
       main W
       = (custom_taps ← get_homebrew_taps W;
          formulae ← get_installed_items W "formula";
          casks ← get_installed_items W "cask";
          formula_map ← group_items_by_tap W formulae;
          cask_map ← group_items_by_tap W casks;
          main_report W (main_taps custom_taps)
            (merge_formulae_and_casks formula_map cask_map)))
  ∧ (∀ (W : World) (h : list event) (e : exn),
       subprocess_run W h ["brew"; "tap"] = Raised e →
       exn_cls e = CalledProcessError →
       get_homebrew_taps W h
       = (h ++ [Subprocess ["brew"; "tap"];
                Print ("Error getting taps: " +:+ exn_str e)],
          Returned [])
       ∧ main_taps [] = ["homebrew/cask"; "homebrew/core"]).
Proof.
  assert (Hin : ∀ t, t ∈ main_taps custom_taps
                     ↔ t = "homebrew/core" ∨ t = "homebrew/cask" ∨ t ∈ custom_taps).
  { intros t. rewrite elem_of_main_taps. simpl.
    rewrite !elem_of_cons. tauto. }
  split; [apply Hin; by left|].
  split; [apply Hin; right; by left|].
  split; [done|].
  split.
  { unfold main_taps. rewrite merge_sort_Permutation. apply NoDup_elements. }
  split.
  { unfold main_taps. apply StronglySorted_merge_sort; apply _. }
  split; [done|].
  intros W h e Hrun Hcls. split.
  - unfold get_homebrew_taps, bind, try_, run_subprocess.
    rewrite Hrun. rewrite decide_True by done.
    unfold print, emit, ret. by rewrite <-app_assoc.
  - apply (Sorted_unique String.le).
    + apply Sorted_merge_sort; apply _.
    + repeat constructor; done.
    + unfold main_taps. rewrite merge_sort_Permutation.
      apply NoDup_Permutation.
      * apply NoDup_elements.
      * repeat constructor; set_solver.
      * intros t. rewrite elem_of_elements, elem_of_list_to_set. set_solver.
Qed.

(** ** The report on three taps *)

Lemma count_starting_app (p : string) (l1 l2 : list string) :
  count_starting p (l1 ++ l2) = count_starting p l1 + count_starting p l2.
Proof. unfold count_starting. by rewrite filter_app, length_app. Qed.

Lemma item_lines_not_status (tap : string) (installed : gmap string (list string)) :
  item_lines tap installed ≠ []
  ∧ count_starting "[OK]" (item_lines tap installed) = 0
  ∧ count_starting "[ERROR]" (item_lines tap installed) = 0.
Proof.
  unfold item_lines.
  by destruct (default [] (installed !! "formulae")),
              (default [] (installed !! "casks")).
Qed.

Lemma status_line_count (tap url : string) (r : reach) :
  count_starting "[OK]" [status_line tap url r]
  = (if decide (r = RBool true) then 1 else 0)
  ∧ count_starting "[ERROR]" [status_line tap url r]
    = (if decide (r = RBool true) then 0 else 1).
Proof. unfold status_line. by destruct (decide (r = RBool true)). Qed.

Lemma printed_prints (lines : list string) : printed (Print <$> lines) = lines.
Proof. induction lines as [|l lines IH]; [done|]. simpl. by f_equal. Qed.

Lemma printed_probe (h : list event) (url : string) (lines : list string) :
  printed (h ++ UrlOpen url :: (Print <$> lines)) = printed h ++ lines.
Proof.
  unfold printed. rewrite omap_app. f_equal. simpl. apply printed_prints.
Qed.

(** What the loop of lines 121-122 prints: for every tap, in order, a
    block made of the status line of some probe result [r] and of the
    tap's item lines. *)
Lemma for_each_check_tap (W : World) (taps : list string)
    (installed_map : gmap pykey (gmap string (list string))) (h : list event) :
  Forall tap_url_ok taps →
  ∃ (h' : list event) (probes : list (string * reach * list event)),
    for_each taps (λ tap, check_tap W tap (default ∅ (installed_map !! KStr tap))) h
    = (h', Returned tt)
    ∧ Forall2 (λ tap p,
         infer_tap_url tap = Returned p.1.1
         ∧ (p.1.2 = RBool true ↔ urlopen_head W p.2 p.1.1 = Returned 200%Z))
        taps probes
    ∧ printed h'
      = printed h
        ++ mjoin (zip_with (λ tap p,
                     status_line tap p.1.1 p.1.2
                     :: item_lines tap (default ∅ (installed_map !! KStr tap)))
                    taps probes).
Proof.
  intros Hok. revert h.
  induction Hok as [|tap taps Htap _ IH]; intros h.
  - exists h, []. simpl. by rewrite app_nil_r.
  - destruct (infer_tap_url_returns tap Htap) as [url Hurl].
    destruct (check_tap_run W tap url (default ∅ (installed_map !! KStr tap)) h Hurl)
      as (r & Hr & Hrun).
    destruct (IH (h ++ UrlOpen url
                    :: (Print <$> status_line tap url r
                          :: item_lines tap (default ∅ (installed_map !! KStr tap)))))
      as (h' & probes & Hloop & Hprobes & Hprinted).
    exists h', ((url, r, h) :: probes). split; [|split].
    + simpl. unfold bind at 1. by rewrite Hrun.
    + by constructor.
    + rewrite Hprinted, printed_probe. simpl. by rewrite <-app_assoc.
Qed.

(** C8: with the taps [homebrew/core], [homebrew/cask] and [alice/tools]
    (in any order) and a probe that answers 200 for the first two only, the
    report prints, after its header, one block per tap: a status line,
    [[OK]] for the two default taps and [[ERROR]] for [alice/tools], then
    the item lines of that tap, which are never missing.  Among the lines
    printed exactly one starts with [[ERROR]] and exactly two with [[OK]]. *)
Theorem report_three_taps (W : World) (taps : list string)
    (installed_map : gmap pykey (gmap string (list string))) (h : list event) :
  taps ≡ₚ ["homebrew/core"; "homebrew/cask"; "alice/tools"] →
  (∀ hist, urlopen_head W hist "https://github.com/homebrew/homebrew-core" = Returned 200%Z) →
  (∀ hist, urlopen_head W hist "https://github.com/homebrew/homebrew-cask" = Returned 200%Z) →
  (∀ hist, urlopen_head W hist "https://github.com/alice/homebrew-tools" ≠ Returned 200%Z) →
  ∃ (h' : list event) (blocks : list (list string)),
    main_report W taps installed_map h = (h', Returned tt)
    ∧ printed h' = printed h ++ report_header taps :: mjoin blocks
    ∧ Forall2 (λ tap block,
         ∃ url r,
           infer_tap_url tap = Returned url
           ∧ (r = RBool true ↔ tap ≠ "alice/tools")
           ∧ block = status_line tap url r
                     :: item_lines tap (default ∅ (installed_map !! KStr tap))
           ∧ item_lines tap (default ∅ (installed_map !! KStr tap)) ≠ [])
        taps blocks
    ∧ count_starting "[ERROR]" (report_header taps :: mjoin blocks) = 1
    ∧ count_starting "[OK]" (report_header taps :: mjoin blocks) = 2.
Proof.
  intros Hperm Hcore Hcask Halice.
  assert (Hok : Forall tap_url_ok taps).
  { rewrite Hperm. by repeat constructor. }
  destruct (for_each_check_tap W taps installed_map
              (h ++ [Print (report_header taps)]) Hok)
    as (h' & probes & Hloop & Hprobes & Hprinted).
  exists h'.
  exists (zip_with (λ tap p,
            status_line tap p.1.1 p.1.2
            :: item_lines tap (default ∅ (installed_map !! KStr tap)))
          taps probes).
  assert (Hres : Forall2 (λ tap p,
            infer_tap_url tap = Returned p.1.1
            ∧ (p.1.2 = RBool true ↔ tap ≠ "alice/tools")) taps probes).
  { assert (Hsub : ∀ tap, tap ∈ taps →
              tap ∈ ["homebrew/core"; "homebrew/cask"; "alice/tools"]).
    { intros tap. by rewrite Hperm. }
    clear Hloop Hprinted Hok Hperm.
    induction Hprobes as [|tap p taps probes [Hurl Hr] _ IH]; constructor.
    - split; [done|]. rewrite Hr.
      specialize (Hsub tap (list_elem_of_here _ _)).
      apply elem_of_cons in Hsub as [->|Hsub].
      { injection Hurl as <-. split; [done|]. intros _. apply Hcore. }
      apply elem_of_cons in Hsub as [->|Hsub].
      { injection Hurl as <-. split; [done|]. intros _. apply Hcask. }
      apply elem_of_cons in Hsub as [->|Hsub]; [|by apply elem_of_nil in Hsub].
      injection Hurl as <-. split; [|done]. intros Hr'. by apply Halice in Hr'.
    - apply IH. intros t Ht. apply Hsub. by apply list_elem_of_further. }
  assert (Hcount :
    count_starting "[OK]"
      (mjoin (zip_with (λ tap p,
                status_line tap p.1.1 p.1.2
                :: item_lines tap (default ∅ (installed_map !! KStr tap)))
              taps probes))
    = length (filter (λ tap, tap ≠ "alice/tools") taps)
    ∧ count_starting "[ERROR]"
        (mjoin (zip_with (λ tap p,
                  status_line tap p.1.1 p.1.2
                  :: item_lines tap (default ∅ (installed_map !! KStr tap)))
                taps probes))
      = length (filter (λ tap, ¬ tap ≠ "alice/tools") taps)).
  { clear Hloop Hprinted Hprobes Hok Hperm.
    induction Hres as [|tap p taps probes [Hurl Hr] _ [IHok IHerr]]; [done|].
    simpl.
    change (status_line tap p.1.1 p.1.2 :: ?l ++ ?l')
      with ([status_line tap p.1.1 p.1.2] ++ l ++ l').
    rewrite !count_starting_app, IHok, IHerr.
    destruct (item_lines_not_status tap (default ∅ (installed_map !! KStr tap)))
      as (_ & -> & ->).
    destruct (status_line_count tap p.1.1 p.1.2) as [-> ->].
    rewrite !filter_cons.
    destruct (decide (p.1.2 = RBool true)) as [Ht|Hf].
    - apply Hr in Ht. rewrite decide_True by done.
      rewrite decide_False by (by intros Hn). done.
    - rewrite decide_False by (by intros Hn%Hr).
      rewrite decide_True by (by intros Hn%Hr). done. }
  split; [|split; [|split; [|split]]].
  - unfold main_report. destruct taps as [|t taps].
    { by apply Permutation_nil_cons in Hperm. }
    unfold bind at 1, print, emit. exact Hloop.
  - rewrite Hprinted. unfold printed at 1. rewrite omap_app. simpl.
    by rewrite <-app_assoc.
  - clear Hloop Hprinted Hprobes Hok Hperm Hcount.
    induction Hres as [|tap p taps probes [Hurl Hr] _ IH]; simpl; constructor.
    + exists p.1.1, p.1.2. repeat split; try done; try apply Hr.
      apply item_lines_not_status.
    + done.
  - assert (Hn : length (filter (λ tap, ¬ tap ≠ "alice/tools") taps) = 1)
      by (by rewrite Hperm).
    change (report_header taps :: ?l) with ([report_header taps] ++ l).
    rewrite count_starting_app. destruct Hcount as [_ ->]. by rewrite Hn.
  - assert (Hn : length (filter (λ tap, tap ≠ "alice/tools") taps) = 2)
      by (by rewrite Hperm).
    change (report_header taps :: ?l) with ([report_header taps] ++ l).
    rewrite count_starting_app. destruct Hcount as [-> _]. by rewrite Hn.
Qed.

(** ** The grouping *)

Lemma attributed_alt (tap_map : gmap pykey (list string)) (x : string) (k : pykey) :
  attributed tap_map x k ↔ x ∈ default [] (tap_map !! k).
Proof.
  unfold attributed. split.
  - by intros (l & -> & Hx).
  - destruct (tap_map !! k) as [l|]; simpl; [by eauto|].
    by intros ?%elem_of_nil.
Qed.

Lemma lookup_append_to (k k' : pykey) (x : string)
    (tap_map : gmap pykey (list string)) :
  default [] (append_to k x tap_map !! k')
  = default [] (tap_map !! k') ++ (if decide (k = k') then [x] else []).
Proof.
  unfold append_to. destruct (decide (k = k')) as [<-|Hne].
  - by rewrite lookup_insert_eq.
  - rewrite lookup_insert_ne by done. by rewrite app_nil_r.
Qed.

Lemma all_items_append_to (k : pykey) (x : string)
    (tap_map : gmap pykey (list string)) :
  all_items (append_to k x tap_map) ≡ₚ all_items tap_map ++ [x].
Proof.
  unfold all_items, append_to. destruct (tap_map !! k) as [l|] eqn:Hk; simpl.
  - rewrite <-(insert_delete_eq tap_map k (l ++ [x])).
    rewrite map_to_list_insert by apply lookup_delete_eq.
    rewrite <-(map_to_list_delete tap_map k l Hk). simpl.
    rewrite <-!app_assoc. f_equiv. apply Permutation_app_comm.
  - rewrite map_to_list_insert by done. simpl. apply Permutation_cons_append.
Qed.

Lemma all_items_singleton (k : pykey) (l : list string) :
  all_items {[ k := l ]} = l.
Proof. unfold all_items. rewrite map_to_list_singleton. simpl. apply app_nil_r. Qed.

Lemma all_items_attributed (tap_map : gmap pykey (list string)) (x : string) :
  x ∈ all_items tap_map ↔ ∃ k, attributed tap_map x k.
Proof.
  unfold all_items, attributed. rewrite list_elem_of_join. split.
  - intros (l & Hx & Hl). apply list_elem_of_fmap in Hl as ([k l'] & -> & Hkl).
    apply elem_of_map_to_list in Hkl. by eauto.
  - intros (k & l & Hk & Hx). exists l. split; [done|].
    apply list_elem_of_fmap. exists (k, l). split; [done|].
    by apply elem_of_map_to_list.
Qed.

Lemma attributed_unique (tap_map : gmap pykey (list string)) (x : string)
    (k1 k2 : pykey) :
  NoDup (all_items tap_map) →
  attributed tap_map x k1 → attributed tap_map x k2 → k1 = k2.
Proof.
  intros Hnd (l1 & Hk1 & Hx1) Hk2.
  destruct (decide (k1 = k2)) as [|Hne]; [done|exfalso].
  assert (Hperm : all_items tap_map ≡ₚ l1 ++ all_items (delete k1 tap_map)).
  { unfold all_items. by rewrite <-(map_to_list_delete tap_map k1 l1 Hk1). }
  rewrite Hperm in Hnd. apply NoDup_app in Hnd as (_ & Hdisj & _).
  apply (Hdisj x Hx1). apply all_items_attributed. exists k2.
  destruct Hk2 as (l2 & Hk2 & Hx2). exists l2. split; [|done].
  by rewrite lookup_delete_ne.
Qed.

Lemma drop_lookup_cases (items : list string) (idx : nat) :
  (∃ item, items !! idx = Some item ∧ (idx < length items)%nat
           ∧ drop idx items = item :: drop (S idx) items)
  ∨ (items !! idx = None ∧ (length items ≤ idx)%nat
     ∧ drop idx items = [] ∧ drop (S idx) items = []).
Proof.
  destruct (items !! idx) as [item|] eqn:Hidx.
  - left. exists item. split; [done|]. split.
    + by eapply lookup_lt_Some.
    + by apply drop_S.
  - right. apply lookup_ge_None in Hidx. split; [done|]. split; [done|].
    split; apply drop_ge; lia.
Qed.

(** The loop only appends items of the input, each position at most once
    and in the order of the input; this holds up to the point where an
    exception stops it as well. *)
Lemma group_loop_added (items : list string) (all_info : list json) :
  ∀ (idx : nat) (tap_map tap_map' : gmap pykey (list string)) (r : result unit),
    group_loop items idx all_info tap_map = (tap_map', r) →
    ∃ added,
      sublist added (drop idx items)
      ∧ all_items tap_map' ≡ₚ all_items tap_map ++ added.
Proof.
  induction all_info as [|info rest IH]; intros idx tap_map tap_map' r Hloop;
    simpl in Hloop.
  - injection Hloop as <- <-. exists []. split; [apply sublist_nil_l|].
    by rewrite app_nil_r.
  - assert (Hstop : ∀ e, (tap_map, Raised e) = (tap_map', r) →
              ∃ added, sublist added (drop idx items)
                       ∧ all_items tap_map' ≡ₚ all_items tap_map ++ added).
    { intros e [= <- <-]. exists []. split; [apply sublist_nil_l|].
      by rewrite app_nil_r. }
    assert (Hskip : group_loop items (S idx) rest tap_map = (tap_map', r) →
              ∃ added, sublist added (drop idx items)
                       ∧ all_items tap_map' ≡ₚ all_items tap_map ++ added).
    { intros Hrest. destruct (IH _ _ _ _ Hrest) as (added & Hsub & Hperm).
      exists added. split; [|done].
      destruct (drop_lookup_cases items idx)
        as [(item & _ & _ & ->)|(_ & _ & -> & Hnil)].
      - by apply sublist_cons.
      - by rewrite Hnil in Hsub. }
    destruct (Py.get info "installed" (JList [])) as [installed|e]; [|by eauto].
    destruct (Py.truthy installed && (idx <? length items)%nat); [|by eauto].
    destruct (Py.get info "tap" (JStr core_tap)) as [tap|e]; [|by eauto].
    destruct (Key.of_json tap) as [k|e]; [|by eauto].
    destruct (drop_lookup_cases items idx)
      as [(item & Hitem & _ & Hdrop)|(Hnone & _ & _ & _)].
    + rewrite Hitem in Hloop.
      destruct (IH _ _ _ _ Hloop) as (added & Hsub & Hperm).
      exists (item :: added). split.
      * rewrite Hdrop. by apply sublist_skip.
      * rewrite Hperm, all_items_append_to. by rewrite <-app_assoc.
    + rewrite Hnone in Hloop. by eauto.
Qed.

(** When the loop runs to its end, the list of every tap has grown by the
    items, in order, whose record confirms them for that tap. *)
Lemma group_loop_returned (items : list string) (all_info : list json) :
  ∀ (idx : nat) (tap_map tap_map' : gmap pykey (list string)),
    group_loop items idx all_info tap_map = (tap_map', Returned tt) →
    ∀ k : pykey,
      default [] (tap_map' !! k)
      = default [] (tap_map !! k)
        ++ (filter (λ p, confirmed_tap p.2 = Some k)
              (zip (drop idx items) all_info)).*1.
Proof.
  induction all_info as [|info rest IH]; intros idx tap_map tap_map' Hloop k;
    simpl in Hloop.
  - injection Hloop as <-. rewrite zip_with_nil_r. simpl. by rewrite app_nil_r.
  - destruct info as [| | | | | |d]; try done. simpl in Hloop.
    unfold confirmed_tap at 1.
    destruct (drop_lookup_cases items idx)
      as [(item & Hitem & Hlt & Hdrop)|(Hnone & Hge & Hnil & Hnil')].
    + rewrite Hdrop. simpl. rewrite filter_cons. simpl.
      apply Nat.ltb_lt in Hlt. rewrite Hlt, andb_true_r in Hloop.
      destruct (Py.truthy (Py.dict_get d "installed" (JList []))).
      * destruct (Key.of_json (Py.dict_get d "tap" (JStr core_tap))) as [k'|e];
          [|done].
        rewrite Hitem in Hloop. rewrite (IH _ _ _ Hloop k), lookup_append_to.
        destruct (decide (k' = k)) as [->|Hne].
        -- rewrite decide_True by done. simpl. by rewrite <-app_assoc.
        -- rewrite decide_False by congruence. by rewrite app_nil_r.
      * rewrite decide_False by done. by apply IH.
    + rewrite Hnil. simpl.
      apply Nat.ltb_ge in Hge. rewrite Hge, andb_false_r in Hloop.
      rewrite (IH _ _ _ Hloop k), Hnil'. done.
Qed.

(** The loop and the two lookups before it raise nothing that the handler
    of [group_items_by_tap] catches. *)
Lemma group_loop_raises (items : list string) (all_info : list json) :
  ∀ (idx : nat) (tap_map tap_map' : gmap pykey (list string)) (e : exn),
    group_loop items idx all_info tap_map = (tap_map', Raised e) →
    group_handles (exn_cls e) = false.
Proof.
  induction all_info as [|info rest IH]; intros idx tap_map tap_map' e Hloop;
    simpl in Hloop; [done|].
  destruct info as [| | | | | |d]; try (by injection Hloop as _ <-).
  simpl in Hloop.
  destruct (Py.truthy _ && _); [|by eauto].
  destruct (Py.dict_get d "tap" (JStr core_tap)) as [| | | | | |];
    simpl in Hloop;
    try (destruct (items !! idx); [by eauto|by injection Hloop as _ <-]);
    by injection Hloop as _ <-.
Qed.

Lemma group_records_raises (items : list string) (info_data : json)
    (tap_map tap_map' : gmap pykey (list string)) (e : exn) :
  group_records items info_data tap_map = (tap_map', Raised e) →
  group_handles (exn_cls e) = false.
Proof.
  unfold group_records, all_info_of. intros Hrec.
  destruct info_data as [| | | | | |d]; try (by injection Hrec as _ <-).
  simpl in Hrec.
  destruct (Py.dict_get d "formulae" (JList [])),
           (Py.dict_get d "casks" (JList []));
    simpl in Hrec; try (by injection Hrec as _ <-);
    by eapply group_loop_raises.
Qed.

(** How a call on a non-empty list can return: through the handler, with
    every item under [homebrew/core], or with the map the loop built. *)
Lemma group_items_by_tap_returned (W : World) (items : list string)
    (h h' : list event) (m : gmap pykey (list string)) :
  items ≠ [] →
  group_items_by_tap W items h = (h', Returned m) →
  (∃ e,
     (subprocess_run W h (["brew"; "info"; "--json=v2"] ++ items) = Raised e
      ∨ ∃ stdout,
          subprocess_run W h (["brew"; "info"; "--json=v2"] ++ items)
          = Returned stdout
          ∧ json_loads W stdout = Raised e)
     ∧ group_handles (exn_cls e) = true
     ∧ m = {[ KStr "homebrew/core" := items ]})
  ∨ (∃ stdout info_data records,
       subprocess_run W h (["brew"; "info"; "--json=v2"] ++ items)
       = Returned stdout
       ∧ json_loads W stdout = Returned info_data
       ∧ all_info_of info_data = Returned records
       ∧ group_loop items 0 records ∅ = (m, Returned tt)).
Proof.
  intros Hne. destruct items as [|x items]; [done|].
  unfold group_items_by_tap, group_try. unfold_monad.
  set (cmd := ["brew"; "info"; "--json=v2"] ++ x :: items).
  assert (Hfallback : ∀ hh e,
    (if group_handles (exn_cls e)
     then λ h0 : list event,
            (h0 ++ [Print ("Error grouping items: " +:+ exn_str e)],
             Returned (foldl (λ tm item, append_to (KStr core_tap) item tm)
                         ∅ (x :: items)))
     else λ h0 : list event, (h0, Raised e)) hh = (h', Returned m) →
    group_handles (exn_cls e) = true ∧ m = {[ KStr "homebrew/core" := x :: items ]}).
  { intros hh e. destruct (group_handles (exn_cls e)); [|done].
    intros Heq. split; [done|].
    assert (Hm : foldl (λ tm item, append_to (KStr core_tap) item tm) ∅ (x :: items)
                 = m) by congruence.
    rewrite <-Hm, (foldl_append_to _ (x :: items)) by done.
    by rewrite lookup_empty. }
  destruct (subprocess_run W h cmd) as [stdout|e] eqn:Hrun.
  - destruct (json_loads W stdout) as [info_data|e] eqn:Hloads.
    + unfold group_records.
      destruct (all_info_of info_data) as [records|e] eqn:Hrecords.
      * destruct (group_loop (x :: items) 0 records ∅) as [m' [[]|e]] eqn:Hloop.
        -- intros [= _ <-]. right. by exists stdout, info_data, records.
        -- rewrite (group_loop_raises _ _ _ _ _ _ Hloop). done.
      * assert (Hcls : group_handles (exn_cls e) = false).
        { apply (group_records_raises (x :: items) info_data ∅ ∅).
          unfold group_records. by rewrite Hrecords. }
        rewrite Hcls. done.
    + intros Hret. apply Hfallback in Hret as [Hcls ->].
      left. exists e. split; [|done]. right. by exists stdout.
  - intros Hret. apply Hfallback in Hret as [Hcls ->].
    left. exists e. split; [|done]. by left.
Qed.

(** C10: the names in the lists of the returned mapping are names of the
    input; taken all together they are a sub-multiset of the input (each
    occurrence of a name in the input is used at most once); for an input
    without duplicates no name occurs twice in the mapping, in one list or
    in the lists of two taps. *)
Theorem group_items_by_tap_sound (W : World) (items : list string)
    (h h' : list event) (m : gmap pykey (list string)) :
  group_items_by_tap W items h = (h', Returned m) →
  (∀ x k, attributed m x k → x ∈ items)
  ∧ all_items m ⊆+ items
  ∧ (NoDup items →
     NoDup (all_items m)
     ∧ ∀ x k1 k2, attributed m x k1 → attributed m x k2 → k1 = k2).
Proof.
  intros Hret.
  assert (Hsub : all_items m ⊆+ items).
  { destruct items as [|x0 items0] eqn:Hitems.
    - injection Hret as _ <-. unfold all_items. by rewrite map_to_list_empty.
    - rewrite <-Hitems in *.
      assert (Hne : items ≠ []) by (by rewrite Hitems).
      destruct (group_items_by_tap_returned W items h h' m Hne Hret)
        as [(e & _ & _ & ->)|(stdout & info_data & records & _ & _ & _ & Hloop)].
      + by rewrite all_items_singleton.
      + destruct (group_loop_added _ _ _ _ _ _ Hloop) as (added & Hadded & Hperm).
        unfold all_items in Hperm at 2. rewrite map_to_list_empty in Hperm.
        simpl in Hperm. rewrite Hperm. by apply sublist_submseteq. }
  split; [|split; [done|]].
  - intros x k Hx. eapply elem_of_submseteq; [|exact Hsub].
    apply all_items_attributed. by exists k.
  - intros Hnd.
    assert (Hnd' : NoDup (all_items m)).
    { destruct (submseteq_Permutation _ _ Hsub) as [rest Hrest].
      rewrite Hrest in Hnd. by apply NoDup_app in Hnd as [? _]. }
    split; [done|]. intros x k1 k2. by apply attributed_unique.
Qed.

(** C1, as amended: on a non-empty input without duplicates, when the
    query fails or its output is not JSON every item is under
    [homebrew/core] and nowhere else; otherwise the item at position [i]
    is under exactly one tap, the one its record (the record at position
    [i] of the response) confirms, when there is such a record and it
    confirms the item, and under no tap at all when the response has no
    record at that position or the record does not confirm it. *)
Theorem group_items_by_tap_attribution (W : World) (items : list string)
    (h h' : list event) (m : gmap pykey (list string)) :
  NoDup items →
  items ≠ [] →
  group_items_by_tap W items h = (h', Returned m) →
  (∃ e,
     (subprocess_run W h (["brew"; "info"; "--json=v2"] ++ items) = Raised e
      ∨ ∃ stdout,
          subprocess_run W h (["brew"; "info"; "--json=v2"] ++ items)
          = Returned stdout
          ∧ json_loads W stdout = Raised e)
     ∧ m = {[ KStr "homebrew/core" := items ]})
  ∨ (∃ stdout info_data records,
       subprocess_run W h (["brew"; "info"; "--json=v2"] ++ items)
       = Returned stdout
       ∧ json_loads W stdout = Returned info_data
       ∧ all_info_of info_data = Returned records
       ∧ ∀ i x,
           items !! i = Some x →
           match records !! i ≫= confirmed_tap with
           | Some k => attributed m x k ∧ ∀ k', attributed m x k' → k' = k
           | None => ∀ k', ¬ attributed m x k'
           end).
Proof.
  intros Hnd Hne Hret.
  destruct (group_items_by_tap_returned W items h h' m Hne Hret)
    as [(e & Hq & _ & ->)|(stdout & info_data & records & Hrun & Hloads & Hrec & Hloop)].
  { left. by exists e. }
  right. exists stdout, info_data, records. repeat (split; [done|]).
  intros i x Hi.
  assert (Hattr : ∀ k, attributed m x k
            ↔ ∃ info, records !! i = Some info ∧ confirmed_tap info = Some k).
  { intros k. rewrite attributed_alt.
    rewrite (group_loop_returned _ _ _ _ _ Hloop k), lookup_empty. simpl.
    rewrite list_elem_of_fmap. split.
    - intros ([x' info] & -> & Hin). apply list_elem_of_filter in Hin as [Hk Hin].
      apply elem_of_lookup_zip_with in Hin as (j & y & z & [= <- <-] & Hy & Hz).
      simpl in *. rewrite (NoDup_lookup _ _ _ _ Hnd Hi Hy). by exists info.
    - intros (info & Hinfo & Hk). exists (x, info). split; [done|].
      apply list_elem_of_filter. split; [done|].
      apply elem_of_lookup_zip_with. by exists i, x, info. }
  destruct (records !! i) as [info|] eqn:Hinfo; simpl.
  - destruct (confirmed_tap info) as [k|] eqn:Hk.
    + split.
      * apply Hattr. by exists info.
      * intros k' (info' & [= <-] & Hk')%Hattr. congruence.
    + intros k' (info' & [= <-] & Hk')%Hattr. congruence.
  - by intros k' (info' & [=] & _)%Hattr.
Qed.

(** ** The statements on concrete runs *)

Lemma append_to_fresh (k : pykey) (x : string)
    (tap_map : gmap pykey (list string)) :
  tap_map !! k = None → append_to k x tap_map = <[k := [x]]> tap_map.
Proof. intros Hk. unfold append_to. by rewrite Hk. Qed.

(** The grouping of the two formulae of [Scenario.world_two_taps]. *)
Lemma two_taps_run :
  group_items_by_tap Scenario.world_two_taps ["wget"; "mytool"] []
  = ([Subprocess ["brew"; "info"; "--json=v2"; "wget"; "mytool"]],
     Returned Scenario.two_taps_map).
Proof.
  replace (group_items_by_tap Scenario.world_two_taps ["wget"; "mytool"] [])
    with ([Subprocess ["brew"; "info"; "--json=v2"; "wget"; "mytool"]],
          Returned (append_to (KStr "alice/tools") "mytool"
                      (append_to (KStr "homebrew/core") "wget" ∅)))
    by reflexivity.
  rewrite (append_to_fresh (KStr "homebrew/core")) by apply lookup_empty.
  rewrite (append_to_fresh (KStr "alice/tools")) by (by rewrite lookup_insert_ne).
  unfold Scenario.two_taps_map.
  rewrite insert_insert_ne by done. by rewrite insert_empty.
Qed.

Lemma two_taps_lookup :
  Scenario.two_taps_map !! KStr "alice/tools" = Some ["mytool"].
Proof.
  unfold Scenario.two_taps_map. rewrite lookup_insert_ne by done.
  apply lookup_singleton_eq.
Qed.

(** C1 fails as stated: [wget] is in the input, [brew info] answers with a
    record whose [installed] list is empty, and the grouping returned is
    empty: [wget] is under no tap, not even [homebrew/core]. *)
Lemma unconfirmed_item_is_dropped :
  group_items_by_tap Scenario.world_not_installed ["wget"] []
  = ([Subprocess ["brew"; "info"; "--json=v2"; "wget"]], Returned ∅)
  ∧ "wget" ∉ all_items (∅ : gmap pykey (list string)).
Proof.
  split; [by vm_compute|].
  unfold all_items. rewrite map_to_list_empty. apply not_elem_of_nil.
Qed.

(** C7 fails as stated: a response of status 204 is not an error and has
    no error text; the result is [False], not a diagnostic string. *)
Lemma no_content_gives_false :
  check_url_reachable Scenario.world_no_content
    "https://github.com/alice/homebrew-tools" []
  = ([UrlOpen "https://github.com/alice/homebrew-tools"], Returned (RBool false))
  ∧ ¬ ∃ diagnostic, RBool false = RStr diagnostic.
Proof. split; [by vm_compute|]. by intros [diagnostic ?]. Qed.

(** C7, as amended, on a probe answered by an [HTTPError]. *)
Lemma check_url_reachable_spec_witness :
  check_url_reachable Scenario.world_two_taps
    "https://github.com/alice/homebrew-tools" []
  = ([UrlOpen "https://github.com/alice/homebrew-tools"],
     Returned (RStr "Error: HTTP Error 404: Not Found"))
  ∧ check_tap Scenario.world_two_taps "alice/tools" ∅ []
    = ([UrlOpen "https://github.com/alice/homebrew-tools";
        Print "[ERROR] Cannot reach alice/tools (https://github.com/alice/homebrew-tools): Error: HTTP Error 404: Not Found";
        Print " ↳ No formulae or casks installed from alice/tools"],
       Returned tt).
Proof.
  destruct (check_url_reachable_spec Scenario.world_two_taps
              "https://github.com/alice/homebrew-tools" [])
    as (r & Hrun & _ & Hcase & Htap).
  simpl in Hcase. destruct Hcase as (line & rest & [= <- <-] & ->).
  split; [exact Hrun|].
  exact (Htap "alice/tools" ∅ eq_refl).
Defined.

(** C3 at [badtap]. *)
Lemma malformed_tap_is_fatal_witness :
  raises ValueError (infer_tap_url "badtap")
  ∧ check_tap Scenario.world_two_taps "badtap" ∅ [] = ([], raise_ ValueError)
  ∧ ∃ h', main_report Scenario.world_two_taps
            ["alice/tools"; "badtap"; "homebrew/core"] ∅ []
          = (h', raise_ ValueError).
Proof.
  destruct (malformed_tap_is_fatal "badtap") as (Hinfer & Hcheck & Hreport & _).
  { by vm_compute. }
  split; [exact Hinfer|]. split; [apply Hcheck|].
  apply Hreport. apply list_elem_of_further, list_elem_of_here.
Defined.


(** C9 on three listed taps, and when [brew tap] fails. *)
Lemma main_taps_spec_witness :
  "homebrew/core" ∈ main_taps ["zed/extras"; "alice/tools"; "homebrew/core"]
  ∧ NoDup (main_taps ["zed/extras"; "alice/tools"; "homebrew/core"])
  ∧ StronglySorted String.le (main_taps ["zed/extras"; "alice/tools"; "homebrew/core"])
  ∧ get_homebrew_taps Scenario.world_brew_fails []
    = ([Subprocess ["brew"; "tap"];
        Print "Error getting taps: Command 'brew' returned non-zero exit status 1."],
       Returned [])
  ∧ main_taps [] = ["homebrew/cask"; "homebrew/core"].
Proof.
  destruct (main_taps_spec ["zed/extras"; "alice/tools"; "homebrew/core"])
    as (Hcore & _ & _ & Hnd & Hsorted & _ & Hfail).
  destruct (Hfail Scenario.world_brew_fails [] Scenario.brew_failed eq_refl eq_refl)
    as [Hget Hdefault].
  by repeat split.
Defined.

(** C8 in the sorted order of [main]. *)
Lemma report_three_taps_witness :
  ∃ (h' : list event) (blocks : list (list string)),
    main_report Scenario.world_two_taps
      ["alice/tools"; "homebrew/cask"; "homebrew/core"]
      (merge_formulae_and_casks Scenario.two_taps_map ∅) []
    = (h', Returned tt)
    ∧ printed h'
      = printed []
        ++ report_header ["alice/tools"; "homebrew/cask"; "homebrew/core"]
           :: mjoin blocks
    ∧ Forall2 (λ tap block,
         ∃ url r,
           infer_tap_url tap = Returned url
           ∧ (r = RBool true ↔ tap ≠ "alice/tools")
           ∧ block = status_line tap url r
                     :: item_lines tap
                          (default ∅ (merge_formulae_and_casks
                                        Scenario.two_taps_map ∅ !! KStr tap))
           ∧ item_lines tap
               (default ∅ (merge_formulae_and_casks
                             Scenario.two_taps_map ∅ !! KStr tap)) ≠ [])
        ["alice/tools"; "homebrew/cask"; "homebrew/core"] blocks
    ∧ count_starting "[ERROR]"
        (report_header ["alice/tools"; "homebrew/cask"; "homebrew/core"]
         :: mjoin blocks) = 1
    ∧ count_starting "[OK]"
        (report_header ["alice/tools"; "homebrew/cask"; "homebrew/core"]
         :: mjoin blocks) = 2.
Proof.
  apply (report_three_taps Scenario.world_two_taps).
  - apply NoDup_Permutation.
    + apply (bool_decide_unpack _). by vm_compute.
    + apply (bool_decide_unpack _). by vm_compute.
    + intros t. rewrite !elem_of_cons. tauto.
  - done.
  - done.
  - done.
Defined.

(** C10 on two formulae of two taps. *)
Lemma group_items_by_tap_sound_witness :
  (∀ x k, attributed Scenario.two_taps_map x k → x ∈ ["wget"; "mytool"])
  ∧ all_items Scenario.two_taps_map ⊆+ ["wget"; "mytool"]
  ∧ NoDup (all_items Scenario.two_taps_map).
Proof.
  destruct (group_items_by_tap_sound Scenario.world_two_taps ["wget"; "mytool"]
              [] [Subprocess ["brew"; "info"; "--json=v2"; "wget"; "mytool"]]
              Scenario.two_taps_map)
    as (Hin & Hsub & Hnd).
  { exact two_taps_run. }
  split; [exact Hin|]. split; [exact Hsub|].
  apply Hnd. apply (bool_decide_unpack _). by vm_compute.
Defined.

(** C1, as amended, on two formulae of two taps. *)
Lemma group_items_by_tap_attribution_witness :
  (∃ e,
     (subprocess_run Scenario.world_two_taps []
        (["brew"; "info"; "--json=v2"] ++ ["wget"; "mytool"]) = Raised e
      ∨ ∃ stdout,
          subprocess_run Scenario.world_two_taps []
            (["brew"; "info"; "--json=v2"] ++ ["wget"; "mytool"])
          = Returned stdout
          ∧ json_loads Scenario.world_two_taps stdout = Raised e)
     ∧ Scenario.two_taps_map = {[ KStr "homebrew/core" := ["wget"; "mytool"] ]})
  ∨ (∃ stdout info_data records,
       subprocess_run Scenario.world_two_taps []
         (["brew"; "info"; "--json=v2"] ++ ["wget"; "mytool"])
       = Returned stdout
       ∧ json_loads Scenario.world_two_taps stdout = Returned info_data
       ∧ all_info_of info_data = Returned records
       ∧ ∀ i x,
           ["wget"; "mytool"] !! i = Some x →
           match records !! i ≫= confirmed_tap with
           | Some k =>
               attributed Scenario.two_taps_map x k
               ∧ ∀ k', attributed Scenario.two_taps_map x k' → k' = k
           | None => ∀ k', ¬ attributed Scenario.two_taps_map x k'
           end).
Proof.
  apply (group_items_by_tap_attribution Scenario.world_two_taps
           ["wget"; "mytool"] []
           [Subprocess ["brew"; "info"; "--json=v2"; "wget"; "mytool"]]).
  - apply (bool_decide_unpack _). by vm_compute.
  - done.
  - exact two_taps_run.
Defined.

(** * Further properties of the script *)

(** ** The two enumerators *)

(** X1: when [brew tap] succeeds, [get_homebrew_taps] returns the lines of
    its stripped output rearranged in increasing order, after that single
    command and without printing. *)
Theorem get_homebrew_taps_sorted (W : World) (h : list event) (stdout : string) :
  subprocess_run W h ["brew"; "tap"] = Returned stdout →
  ∃ taps,
    get_homebrew_taps W h = (h ++ [Subprocess ["brew"; "tap"]], Returned taps)
    ∧ taps ≡ₚ PyStr.splitlines (PyStr.strip stdout)
    ∧ StronglySorted String.le taps.
Proof.
  intros Hrun. eexists. split.
  - unfold get_homebrew_taps. unfold_monad. by rewrite Hrun.
  - split.
    + apply merge_sort_Permutation.
    + apply StronglySorted_merge_sort; apply _.
Qed.

(** X1 on two taps listed in decreasing order. *)
Lemma get_homebrew_taps_sorted_witness :
  ∃ taps,
    get_homebrew_taps Scenario.world_unsorted_taps []
    = ([] ++ [Subprocess ["brew"; "tap"]], Returned taps)
    ∧ taps ≡ₚ PyStr.splitlines (PyStr.strip Scenario.stdout_unsorted_taps)
    ∧ StronglySorted String.le taps.
Proof.
  apply (get_homebrew_taps_sorted Scenario.world_unsorted_taps []
           Scenario.stdout_unsorted_taps).
  done.
Defined.

(** X2: an exception of [brew tap] that is not a [CalledProcessError] (the
    executable is missing, say) is not handled: it leaves
    [get_homebrew_taps], and [main] with it, after that one command; nothing
    is printed and nothing else is run or probed. *)
Theorem brew_tap_error_is_fatal (W : World) (h : list event) (e : exn) :
  subprocess_run W h ["brew"; "tap"] = Raised e →
  exn_cls e ≠ CalledProcessError →
  get_homebrew_taps W h = (h ++ [Subprocess ["brew"; "tap"]], Raised e)
  ∧ main W h = (h ++ [Subprocess ["brew"; "tap"]], Raised e).
Proof.
  intros Hrun Hcls.
  assert (Hget : get_homebrew_taps W h
                 = (h ++ [Subprocess ["brew"; "tap"]], Raised e)).
  { unfold get_homebrew_taps. unfold_monad. rewrite Hrun.
    by rewrite decide_False. }
  split; [done|]. unfold main, bind at 1. by rewrite Hget.
Qed.

Lemma brew_tap_error_is_fatal_witness :
  get_homebrew_taps Scenario.world_no_brew []
  = ([] ++ [Subprocess ["brew"; "tap"]], Raised Scenario.no_brew)
  ∧ main Scenario.world_no_brew []
    = ([] ++ [Subprocess ["brew"; "tap"]], Raised Scenario.no_brew).
Proof.
  apply (brew_tap_error_is_fatal Scenario.world_no_brew [] Scenario.no_brew).
  - done.
  - done.
Defined.

(** X3: when the listing of one kind exits with a non-zero status, the
    items of that kind are taken to be none: the error is printed with the
    kind in it, and grouping the result yields the empty mapping without
    any metadata query. *)
Theorem failed_listing_costs_no_query (W : World) (h : list event)
    (item_type : string) (e : exn) :
  subprocess_run W h ["brew"; "list"; "--" +:+ item_type] = Raised e →
  exn_cls e = CalledProcessError →
  (items ← get_installed_items W item_type; group_items_by_tap W items) h
  = (h ++ [Subprocess ["brew"; "list"; "--" +:+ item_type];
           Print ("Error getting installed " +:+ item_type +:+ ": " +:+ exn_str e)],
     Returned ∅).
Proof.
  intros Hrun Hcls. unfold get_installed_items. unfold_monad.
  rewrite Hrun. rewrite decide_True by done. simpl. by rewrite <-app_assoc.
Qed.

Lemma failed_listing_costs_no_query_witness :
  (items ← get_installed_items Scenario.world_brew_fails "cask";
   group_items_by_tap Scenario.world_brew_fails items) []
  = ([] ++ [Subprocess ["brew"; "list"; "--" +:+ "cask"];
            Print ("Error getting installed " +:+ "cask" +:+ ": "
                   +:+ exn_str Scenario.brew_failed)],
     Returned ∅).
Proof.
  apply (failed_listing_costs_no_query Scenario.world_brew_fails [] "cask"
           Scenario.brew_failed).
  - done.
  - done.
Defined.

Lemma count_app (c : ascii) (s1 s2 : string) :
  PyStr.count c (s1 +:+ s2) = PyStr.count c s1 + PyStr.count c s2.
Proof.
  induction s1 as [|c' s1 IH]; simpl; [done|]. rewrite IH. lia.
Qed.

Lemma one_line_snoc (cur : string) (c : ascii) :
  one_line cur →
  PyStr.is_byte c 10 = false → PyStr.is_byte c 13 = false →
  one_line (cur +:+ String c "").
Proof.
  intros [Hlf Hcr] H10 H13. unfold one_line. rewrite !count_app, Hlf, Hcr. simpl.
  split.
  - rewrite decide_False; [done|]. intros ->. by vm_compute in H10.
  - rewrite decide_False; [done|]. intros ->. by vm_compute in H13.
Qed.

Lemma splitlines_from_one_line (n : nat) :
  ∀ s cur : string,
    (String.length s ≤ n)%nat →
    one_line cur →
    Forall one_line (PyStr.splitlines_from cur s).
Proof.
  assert (Hempty : one_line "") by done.
  induction n as [|n IH]; intros s cur Hlen Hcur.
  - destruct s; [|simpl in Hlen; lia]. simpl.
    destruct (decide (cur = "")); [by apply Forall_nil|by apply Forall_singleton].
  - destruct s as [|c1 s1]; simpl.
    { destruct (decide (cur = "")); [by apply Forall_nil|by apply Forall_singleton]. }
    simpl in Hlen.
    destruct (PyStr.is_byte c1 13) eqn:H13.
    { destruct s1 as [|c2 s2].
      - constructor; [done|]. apply IH; [simpl; lia|done].
      - destruct (PyStr.is_byte c2 10);
          (constructor; [done|]); apply IH; simpl in *; (lia || done). }
    destruct (PyStr.is_byte c1 10) eqn:H10.
    { simpl. constructor; [done|]. apply IH; [lia|done]. }
    assert (Hsnoc : Forall one_line
              (PyStr.splitlines_from (cur +:+ String c1 "") s1)).
    { apply IH; [lia|]. by apply one_line_snoc. }
    simpl.
    destruct (PyStr.is_byte c1 11 || PyStr.is_byte c1 12 || PyStr.is_byte c1 28
              || PyStr.is_byte c1 29 || PyStr.is_byte c1 30).
    { constructor; [done|]. apply IH; [lia|done]. }
    destruct s1 as [|c2 s2]; [done|].
    destruct (PyStr.is_byte c1 194 && PyStr.is_byte c2 133).
    { constructor; [done|]. apply IH; [simpl in *; lia|done]. }
    destruct s2 as [|c3 s3]; [done|].
    destruct (PyStr.is_byte c1 226 && PyStr.is_byte c2 128
              && (PyStr.is_byte c3 168 || PyStr.is_byte c3 169)); [|done].
    constructor; [done|]. apply IH; [simpl in *; lia|done].
Qed.

Lemma splitlines_one_line (s : string) : Forall one_line (PyStr.splitlines s).
Proof. by apply (splitlines_from_one_line (String.length s)). Qed.

(** X4: the names the two enumerators return never hold a line feed or a
    carriage return, whatever [brew] printed: each is one line of the
    output. *)
Theorem enumerated_names_are_lines (W : World) (h h' : list event) :
  (∀ item_type items,
     get_installed_items W item_type h = (h', Returned items) →
     Forall one_line items)
  ∧ (∀ taps,
       get_homebrew_taps W h = (h', Returned taps) → Forall one_line taps).
Proof.
  split.
  - intros item_type items. unfold get_installed_items. unfold_monad.
    destruct (subprocess_run W h _) as [stdout|e].
    + intros [= _ <-]. apply splitlines_one_line.
    + destruct (decide (exn_cls e = CalledProcessError)); [|done].
      by intros [= _ <-].
  - intros taps. unfold get_homebrew_taps. unfold_monad.
    destruct (subprocess_run W h _) as [stdout|e].
    + intros [= _ <-]. rewrite merge_sort_Permutation. apply splitlines_one_line.
    + destruct (decide (exn_cls e = CalledProcessError)); [|done].
      by intros [= _ <-].
Qed.

Lemma enumerated_names_are_lines_witness :
  Forall one_line ["wget"; "mytool"] ∧ Forall one_line ["alice/tools"].
Proof.
  split.
  - apply (proj1 (enumerated_names_are_lines Scenario.world_two_taps []
                    [Subprocess ["brew"; "list"; "--formula"]]) "formula").
    by vm_compute.
  - apply (proj2 (enumerated_names_are_lines Scenario.world_two_taps []
                    [Subprocess ["brew"; "tap"]])).
    by vm_compute.
Defined.

(** ** More on the grouping *)

(** X5: on a non-empty list [group_items_by_tap] starts exactly one
    subprocess, [brew info --json=v2] followed by all the items, however
    the call ends; it probes no URL, and prints at most one line, the error
    report of the handler. *)
Theorem group_items_by_tap_one_query (W : World) (items : list string)
    (h : list event) :
  items ≠ [] →
  ∃ (lines : list string) (r : result (gmap pykey (list string))),
    group_items_by_tap W items h
    = (h ++ Subprocess (["brew"; "info"; "--json=v2"] ++ items)
         :: (Print <$> lines), r)
    ∧ (length lines ≤ 1)%nat
    ∧ (lines ≠ [] → r = Returned {[ KStr "homebrew/core" := items ]}).
Proof.
  intros Hne. destruct items as [|x items]; [done|].
  unfold group_items_by_tap, group_try. unfold_monad.
  set (cmd := ["brew"; "info"; "--json=v2"] ++ x :: items).
  assert (Hhandler : ∀ e,
    ∃ (lines : list string) (r : result (gmap pykey (list string))),
      (if group_handles (exn_cls e)
       then λ h0 : list event,
              (h0 ++ [Print ("Error grouping items: " +:+ exn_str e)],
               Returned (foldl (λ tm item, append_to (KStr core_tap) item tm)
                           ∅ (x :: items)))
       else λ h0 : list event, (h0, Raised e)) (h ++ [Subprocess cmd])
      = (h ++ Subprocess cmd :: (Print <$> lines), r)
      ∧ (length lines ≤ 1)%nat
      ∧ (lines ≠ [] → r = Returned {[ KStr "homebrew/core" := x :: items ]})).
  { intros e. destruct (group_handles (exn_cls e)).
    - exists ["Error grouping items: " +:+ exn_str e]. eexists.
      split; [by rewrite <-app_assoc|]. split; [simpl; lia|]. intros _.
      rewrite (foldl_append_to _ (x :: items)) by done.
      by rewrite lookup_empty.
    - exists []. eexists. split; [done|]. split; [simpl; lia|done]. }
  destruct (subprocess_run W h cmd) as [stdout|e]; [|by apply Hhandler].
  destruct (json_loads W stdout) as [info_data|e]; [|by apply Hhandler].
  destruct (group_records (x :: items) info_data ∅) as [m [[]|e]] eqn:Hrec.
  - exists []. eexists. split; [done|]. split; [simpl; lia|done].
  - rewrite (group_records_raises _ _ _ _ _ Hrec).
    exists []. eexists. split; [done|]. split; [simpl; lia|done].
Qed.

Lemma group_items_by_tap_one_query_witness :
  ∃ (lines : list string) (r : result (gmap pykey (list string))),
    group_items_by_tap Scenario.world_brew_fails ["wget"] []
    = ([] ++ Subprocess (["brew"; "info"; "--json=v2"] ++ ["wget"])
          :: (Print <$> lines), r)
    ∧ (length lines ≤ 1)%nat
    ∧ (lines ≠ [] → r = Returned {[ KStr "homebrew/core" := ["wget"] ]}).
Proof.
  apply (group_items_by_tap_one_query Scenario.world_brew_fails ["wget"] []).
  done.
Defined.

(** X6: a response that is JSON but not an object (an array, a string, a
    number, null) is not covered by the handler: the first [get] raises
    [AttributeError], which leaves [group_items_by_tap]; nothing is printed
    and no item falls back to [homebrew/core]. *)
Theorem non_object_response_is_fatal (W : World) (items : list string)
    (h : list event) (stdout : string) (info_data : json) :
  items ≠ [] →
  subprocess_run W h (["brew"; "info"; "--json=v2"] ++ items) = Returned stdout →
  json_loads W stdout = Returned info_data →
  (∀ d, info_data ≠ JDict d) →
  group_items_by_tap W items h
  = (h ++ [Subprocess (["brew"; "info"; "--json=v2"] ++ items)],
     raise_ AttributeError).
Proof.
  intros Hne Hrun Hloads Hshape. destruct items as [|x items]; [done|].
  unfold group_items_by_tap, group_try. unfold_monad.
  rewrite Hrun, Hloads. unfold group_records, all_info_of.
  destruct info_data as [| | | | | |d]; try done.
  by destruct (Hshape d).
Qed.

Lemma non_object_response_is_fatal_witness :
  group_items_by_tap Scenario.world_array ["wget"] []
  = ([] ++ [Subprocess (["brew"; "info"; "--json=v2"] ++ ["wget"])],
     raise_ AttributeError).
Proof.
  apply (non_object_response_is_fatal Scenario.world_array ["wget"] []
           "[]" (JList [])); done.
Defined.

Lemma confirmed_items_sublist (k : pykey) (items : list string) :
  ∀ records : list json,
    sublist (filter (λ p, confirmed_tap p.2 = Some k) (zip items records)).*1
      items.
Proof.
  induction items as [|x items IH]; intros records; simpl.
  - done.
  - destruct records as [|info records]; simpl; [apply sublist_nil_l|].
    rewrite filter_cons. simpl. destruct (decide _); simpl.
    + apply sublist_skip, IH.
    + apply sublist_cons, IH.
Qed.

Lemma append_to_no_empty (k : pykey) (x : string)
    (tap_map : gmap pykey (list string)) :
  (∀ k', tap_map !! k' ≠ Some []) →
  ∀ k', append_to k x tap_map !! k' ≠ Some [].
Proof.
  intros Hm k'. unfold append_to. destruct (decide (k = k')) as [<-|Hne].
  - rewrite lookup_insert_eq. intros [= Heq]. by destruct (default [] _).
  - by rewrite lookup_insert_ne.
Qed.

Lemma group_loop_no_empty (items : list string) (all_info : list json) :
  ∀ (idx : nat) (tap_map tap_map' : gmap pykey (list string)) (r : result unit),
    (∀ k, tap_map !! k ≠ Some []) →
    group_loop items idx all_info tap_map = (tap_map', r) →
    ∀ k, tap_map' !! k ≠ Some [].
Proof.
  induction all_info as [|info rest IH]; intros idx tap_map tap_map' r Hm Hloop;
    simpl in Hloop.
  - by injection Hloop as <- _.
  - destruct (Py.get info "installed" (JList [])) as [installed|e];
      [|by injection Hloop as <- _].
    destruct (Py.truthy installed && (idx <? length items)%nat); [|by eauto].
    destruct (Py.get info "tap" (JStr core_tap)) as [tap|e];
      [|by injection Hloop as <- _].
    destruct (Key.of_json tap) as [k|e]; [|by injection Hloop as <- _].
    destruct (items !! idx) as [item|]; [|by injection Hloop as <- _].
    eapply IH; [|exact Hloop]. by apply append_to_no_empty.
Qed.

(** X7: when the response is decoded into the records [records], the list
    of every tap is exactly the sequence, in input order, of the items
    whose record (the one at the same position) confirms them for that
    tap; records past the end of the input play no part. *)
Theorem group_items_by_tap_lists (W : World) (items : list string)
    (h h' : list event) (m : gmap pykey (list string))
    (stdout : string) (info_data : json) (records : list json) :
  items ≠ [] →
  subprocess_run W h (["brew"; "info"; "--json=v2"] ++ items) = Returned stdout →
  json_loads W stdout = Returned info_data →
  all_info_of info_data = Returned records →
  group_items_by_tap W items h = (h', Returned m) →
  ∀ k : pykey,
    default [] (m !! k)
    = (filter (λ p, confirmed_tap p.2 = Some k)
         (zip items (take (length items) records))).*1.
Proof.
  intros Hne Hrun Hloads Hrecords Hret k.
  destruct (group_items_by_tap_returned W items h h' m Hne Hret)
    as [(e & [Hq|(stdout' & Hq & Hq')] & _)
       |(stdout' & info_data' & records' & Hrun' & Hloads' & Hrecords' & Hloop)].
  - congruence.
  - congruence.
  - assert (stdout' = stdout) as -> by congruence.
    assert (info_data' = info_data) as -> by congruence.
    assert (records' = records) as -> by congruence.
    rewrite (group_loop_returned _ _ _ _ _ Hloop k), lookup_empty. simpl.
    by rewrite zip_with_take_r.
Qed.

Lemma group_items_by_tap_lists_witness :
  default [] (Scenario.two_taps_map !! KStr "alice/tools")
  = (filter (λ p, confirmed_tap p.2 = Some (KStr "alice/tools"))
       (zip ["wget"; "mytool"]
          (take (length ["wget"; "mytool"])
             [JDict [("name", JStr "wget");
                     ("installed", JList [JDict [("version", JStr "1.24.5")]])];
              JDict [("name", JStr "mytool");
                     ("tap", JStr "alice/tools");
                     ("installed", JList [JDict [("version", JStr "0.3")]])]]))).*1.
Proof.
  apply (group_items_by_tap_lists Scenario.world_two_taps ["wget"; "mytool"] []
           [Subprocess ["brew"; "info"; "--json=v2"; "wget"; "mytool"]]
           Scenario.two_taps_map Scenario.stdout_two_taps Scenario.doc_two_taps).
  - done.
  - done.
  - done.
  - done.
  - exact two_taps_run.
Defined.

(** X8: in every mapping [group_items_by_tap] returns, no tap has an
    empty list, and the list of each tap is a subsequence of the input:
    the items keep the order they were given in. *)
Theorem group_items_by_tap_ordered (W : World) (items : list string)
    (h h' : list event) (m : gmap pykey (list string)) :
  group_items_by_tap W items h = (h', Returned m) →
  ∀ (k : pykey) (l : list string),
    m !! k = Some l → l ≠ [] ∧ sublist l items.
Proof.
  intros Hret k l Hk.
  destruct items as [|x0 items0] eqn:Hitems.
  { injection Hret as _ <-. by rewrite lookup_empty in Hk. }
  rewrite <-Hitems in *.
  assert (Hne : items ≠ []) by (by rewrite Hitems).
  destruct (group_items_by_tap_returned W items h h' m Hne Hret)
    as [(e & _ & _ & ->)|(stdout & info_data & records & _ & _ & _ & Hloop)].
  - apply lookup_singleton_Some in Hk as [_ <-]. done.
  - split.
    + intros ->. eapply (group_loop_no_empty _ _ _ _ _ _ _ Hloop), Hk.
    + pose proof (group_loop_returned _ _ _ _ _ Hloop k) as Hl.
      rewrite Hk, lookup_empty in Hl. simpl in Hl. rewrite Hl.
      apply confirmed_items_sublist.
  Unshelve. intros k'. by rewrite lookup_empty.
Qed.

Lemma group_items_by_tap_ordered_witness :
  ["mytool"] ≠ [] ∧ sublist ["mytool"] ["wget"; "mytool"].
Proof.
  refine (group_items_by_tap_ordered Scenario.world_two_taps ["wget"; "mytool"] []
            [Subprocess ["brew"; "info"; "--json=v2"; "wget"; "mytool"]]
            Scenario.two_taps_map _ (KStr "alice/tools") ["mytool"] _).
  - exact two_taps_run.
  - exact two_taps_lookup.
Defined.

(** ** Merging and reading back *)

Lemma merge_lookup (formula_map cask_map : gmap pykey (list string)) (tap : pykey) :
  merge_formulae_and_casks formula_map cask_map !! tap
  = if decide (tap ∈ dom formula_map ∪ dom cask_map)
    then Some ({[ "formulae" := default [] (formula_map !! tap);
                  "casks" := default [] (cask_map !! tap) ]}
               : gmap string (list string))
    else None.
Proof.
  revert tap.
  pose (P := λ (merged : gmap pykey (gmap string (list string)))
                (X : gset pykey),
    ∀ tap : pykey,
      merged !! tap
      = if decide (tap ∈ X)
        then Some ({[ "formulae" := default [] (formula_map !! tap);
                      "casks" := default [] (cask_map !! tap) ]}
                   : gmap string (list string))
        else None).
  enough (P (merge_formulae_and_casks formula_map cask_map)
            (dom formula_map ∪ dom cask_map)) by done.
  unfold merge_formulae_and_casks. apply (set_fold_ind_L P); unfold P.
  - intros tap. rewrite lookup_empty.
    destruct (decide (tap ∈ (∅ : gset pykey))) as [Hin|]; [|done].
    by apply elem_of_empty in Hin.
  - intros tap X merged Hfresh Hget tap'.
    destruct (decide (tap = tap')) as [<-|Hne].
    + rewrite lookup_insert_eq. rewrite decide_True; [done|].
      apply elem_of_union. left. by apply elem_of_singleton.
    + rewrite lookup_insert_ne by done. rewrite Hget.
      destruct (decide (tap' ∈ X)) as [Hin|Hout],
               (decide (tap' ∈ {[tap]} ∪ X)) as [Hin'|Hout']; try done.
      * exfalso. apply Hout'. apply elem_of_union. by right.
      * exfalso.
        apply elem_of_union in Hin' as [Heq%elem_of_singleton|Hin']; done.
Qed.

(** X9: what [main] hands to [check_tap] for a tap, and what [check_tap]
    then reads with [get], is the formula list of that tap in the formula
    grouping and its cask list in the cask grouping, the empty list where a
    grouping lacks the tap; this holds for taps absent from both as well. *)
Theorem merged_lists_read_back
    (formula_map cask_map : gmap pykey (list string)) (tap : pykey) :
  let installed :=
    default ∅ (merge_formulae_and_casks formula_map cask_map !! tap) in
  default [] (installed !! "formulae") = default [] (formula_map !! tap)
  ∧ default [] (installed !! "casks") = default [] (cask_map !! tap).
Proof.
  simpl. rewrite merge_lookup.
  destruct (decide (tap ∈ dom formula_map ∪ dom cask_map)) as [Hin|Hout]; simpl.
  - rewrite lookup_insert_eq. rewrite lookup_insert_ne by done.
    by rewrite lookup_singleton_eq.
  - rewrite lookup_empty. simpl.
    apply not_elem_of_union in Hout as [Hf Hc].
    apply not_elem_of_dom in Hf, Hc. by rewrite Hf, Hc.
Qed.

(** ** Tap names and URLs *)

Lemma split_inv (sep : ascii) (s a b : string) :
  PyStr.split sep s = [a; b] →
  s = a +:+ String sep b ∧ PyStr.count sep a = 0 ∧ PyStr.count sep b = 0.
Proof.
  revert a. induction s as [|c s IH]; intros a; simpl; [done|].
  destruct (decide (c = sep)) as [->|Hc].
  - intros [= <- Hb].
    pose proof (length_split sep s) as Hlen. rewrite Hb in Hlen.
    simpl in Hlen. assert (Hs : PyStr.count sep s = 0) by lia.
    rewrite (split_no_sep sep s Hs) in Hb. injection Hb as <-. done.
  - destruct (PyStr.split sep s) as [|seg segs] eqn:Hs; [done|].
    intros [= <- ->]. destruct (IH seg eq_refl) as (-> & Ha & Hb).
    split; [done|]. simpl. by rewrite decide_False.
Qed.

Lemma app_sep_inj (sep : ascii) (a a' x x' : string) :
  PyStr.count sep a = 0 → PyStr.count sep a' = 0 →
  a +:+ String sep x = a' +:+ String sep x' → a = a' ∧ x = x'.
Proof.
  revert a'. induction a as [|c a IH]; intros [|c' a']; simpl.
  - by intros _ _ [= ->].
  - intros _ Hc' [= <- _]. by rewrite decide_True in Hc'.
  - intros Hc _ [= -> _]. by rewrite decide_True in Hc.
  - destruct (decide (c = sep)); [done|]. destruct (decide (c' = sep)); [done|].
    intros Ha Ha' [= -> Heq]. destruct (IH a' Ha Ha' Heq) as [-> ->]. done.
Qed.

(** X10: two tap names with one [/] each that are given the same URL are
    the same name: distinct taps are never probed at one URL. *)
Theorem infer_tap_url_injective (tap1 tap2 : string) :
  PyStr.count "/" tap1 = 1 →
  PyStr.count "/" tap2 = 1 →
  infer_tap_url tap1 = infer_tap_url tap2 →
  tap1 = tap2.
Proof.
  intros H1 H2. unfold infer_tap_url.
  pose proof (length_split "/" tap1) as Hlen1. rewrite H1 in Hlen1.
  pose proof (length_split "/" tap2) as Hlen2. rewrite H2 in Hlen2.
  destruct (PyStr.split "/" tap1) as [|a1 [|b1 [|]]] eqn:Hs1; try done.
  destruct (PyStr.split "/" tap2) as [|a2 [|b2 [|]]] eqn:Hs2; try done.
  apply split_inv in Hs1 as (-> & Ha1 & Hb1).
  apply split_inv in Hs2 as (-> & Ha2 & Hb2).
  intros [= Heq]. simpl in Heq.
  apply app_sep_inj in Heq as [-> Hb]; [|done..].
  by simplify_eq/=.
Qed.

Lemma infer_tap_url_injective_witness : "alice/tools" = "alice/tools".
Proof.
  apply (infer_tap_url_injective "alice/tools" "alice/tools"); done.
Defined.

(** X11: the tap list of [main] depends only on which names [brew tap]
    listed, not on their order or repetitions; it never has fewer than the
    two default taps, so [main] always takes the branch that reports and
    never the one that prints that no tap was found. *)
Theorem main_taps_of_set (custom1 custom2 : list string) :
  (∀ t, t ∈ custom1 ↔ t ∈ custom2) →
  main_taps custom1 = main_taps custom2
  ∧ (2 ≤ length (main_taps custom1))%nat
  ∧ ∀ W installed_map h,
      main_report W (main_taps custom1) installed_map h
      = (print (report_header (main_taps custom1)) ;;
         for_each (main_taps custom1) (λ tap,
           check_tap W tap (default ∅ (installed_map !! KStr tap)))) h.
Proof.
  intros Hsame.
  assert (Hlen : (2 ≤ length (main_taps custom1))%nat).
  { change 2 with (length ["homebrew/core"; "homebrew/cask"]).
    apply submseteq_length, NoDup_submseteq.
    - apply (bool_decide_unpack _). by vm_compute.
    - intros t Ht. apply elem_of_main_taps. apply elem_of_app. by left. }
  split; [|split; [done|]].
  - apply (Sorted_unique String.le).
    + apply Sorted_merge_sort; apply _.
    + apply Sorted_merge_sort; apply _.
    + apply NoDup_Permutation.
      * unfold main_taps. rewrite merge_sort_Permutation. apply NoDup_elements.
      * unfold main_taps. rewrite merge_sort_Permutation. apply NoDup_elements.
      * intros t. rewrite !elem_of_main_taps, !elem_of_app. by rewrite Hsame.
  - intros W installed_map h. unfold main_report, report_header.
    destruct (main_taps custom1); [simpl in Hlen; lia|done].
Qed.

Lemma main_taps_of_set_witness :
  main_taps ["zed/extras"; "alice/tools"; "zed/extras"]
  = main_taps ["alice/tools"; "zed/extras"]
  ∧ (2 ≤ length (main_taps ["zed/extras"; "alice/tools"; "zed/extras"]))%nat.
Proof.
  destruct (main_taps_of_set ["zed/extras"; "alice/tools"; "zed/extras"]
              ["alice/tools"; "zed/extras"]) as (Heq & Hlen & _).
  - intros t. rewrite !elem_of_cons. tauto.
  - by split.
Defined.

(** ** The report loop *)

Lemma tap_url_infer (tap url : string) :
  infer_tap_url tap = Returned url → tap_url tap = url.
Proof. unfold tap_url. by intros ->. Qed.

Lemma url_probes_block (h : list event) (url : string) (lines : list string) :
  url_probes (h ++ UrlOpen url :: (Print <$> lines)) = url_probes h ++ [url].
Proof.
  unfold url_probes. rewrite omap_app. f_equal. simpl. f_equal.
  induction lines as [|l lines IH]; [done|]. by simpl.
Qed.

Lemma subprocess_calls_block (h : list event) (url : string) (lines : list string) :
  subprocess_calls (h ++ UrlOpen url :: (Print <$> lines)) = subprocess_calls h.
Proof.
  unfold subprocess_calls. rewrite omap_app. simpl.
  induction lines as [|l lines IH]; simpl; [apply app_nil_r|exact IH].
Qed.

Lemma length_item_lines (tap : string) (installed : gmap string (list string)) :
  (1 ≤ length (item_lines tap installed) ≤ 2)%nat.
Proof.
  unfold item_lines.
  destruct (default [] (installed !! "formulae")),
           (default [] (installed !! "casks")); simpl; lia.
Qed.

Lemma printed_print (h : list event) (text : string) :
  printed (h ++ [Print text]) = printed h ++ [text].
Proof. unfold printed. by rewrite omap_app. Qed.

Lemma url_probes_print (h : list event) (text : string) :
  url_probes (h ++ [Print text]) = url_probes h.
Proof. unfold url_probes. rewrite omap_app. apply app_nil_r. Qed.

Lemma subprocess_calls_print (h : list event) (text : string) :
  subprocess_calls (h ++ [Print text]) = subprocess_calls h.
Proof. unfold subprocess_calls. rewrite omap_app. apply app_nil_r. Qed.


(** The loop over well-formed names: one probe per tap, in order, no
    subprocess, and two or three printed lines per tap. *)
Lemma for_each_probes (W : World) (taps : list string)
    (installed_map : gmap pykey (gmap string (list string))) :
  Forall tap_url_ok taps →
  ∀ h : list event,
    ∃ h' : list event,
      for_each taps (λ tap, check_tap W tap (default ∅ (installed_map !! KStr tap))) h
      = (h', Returned tt)
      ∧ url_probes h' = url_probes h ++ (tap_url <$> taps)
      ∧ subprocess_calls h' = subprocess_calls h
      ∧ (length (printed h) + 2 * length taps ≤ length (printed h')
         ≤ length (printed h) + 3 * length taps)%nat.
Proof.
  induction 1 as [|tap taps Htap _ IH]; intros h.
  - exists h. simpl. rewrite app_nil_r. repeat split; lia.
  - destruct (infer_tap_url_returns tap Htap) as [url Hurl].
    destruct (check_tap_run W tap url (default ∅ (installed_map !! KStr tap)) h Hurl)
      as (r & _ & Hrun).
    destruct (IH (h ++ UrlOpen url
                    :: (Print <$> status_line tap url r
                          :: item_lines tap (default ∅ (installed_map !! KStr tap)))))
      as (h' & Hloop & Hprobes & Hcalls & Hlines).
    exists h'. split; [|split; [|split]].
    + simpl. unfold bind at 1. by rewrite Hrun.
    + rewrite Hprobes, url_probes_block, fmap_cons, (tap_url_infer _ _ Hurl).
      by rewrite <-app_assoc.
    + by rewrite Hcalls, subprocess_calls_block.
    + rewrite printed_probe, length_app in Hlines. simpl in Hlines.
      pose proof (length_item_lines tap (default ∅ (installed_map !! KStr tap))).
      simpl. lia.
Qed.

Lemma main_report_nonempty (W : World) (taps : list string)
    (installed_map : gmap pykey (gmap string (list string))) (h : list event) :
  taps ≠ [] →
  main_report W taps installed_map h
  = for_each taps (λ tap, check_tap W tap (default ∅ (installed_map !! KStr tap)))
      (h ++ [Print (report_header taps)]).
Proof. intros Hne. destruct taps as [|t taps]; [done|]. reflexivity. Qed.

(** X12: on a non-empty list of names with one [/] each the report
    returns normally whatever the network answers; it probes the URL of
    every tap once, in the order of the list, starts no subprocess, and
    prints the header and then two or three lines per tap. *)
Theorem main_report_probes (W : World) (taps : list string)
    (installed_map : gmap pykey (gmap string (list string))) (h : list event) :
  taps ≠ [] →
  Forall tap_url_ok taps →
  ∃ h' : list event,
    main_report W taps installed_map h = (h', Returned tt)
    ∧ url_probes h' = url_probes h ++ (tap_url <$> taps)
    ∧ subprocess_calls h' = subprocess_calls h
    ∧ (length (printed h) + 1 + 2 * length taps ≤ length (printed h')
       ≤ length (printed h) + 1 + 3 * length taps)%nat.
Proof.
  intros Hne Hok.
  destruct (for_each_probes W taps installed_map Hok
              (h ++ [Print (report_header taps)]))
    as (h' & Hloop & Hprobes & Hcalls & Hlines).
  exists h'. split; [|split; [|split]].
  - by rewrite main_report_nonempty.
  - by rewrite Hprobes, url_probes_print.
  - by rewrite Hcalls, subprocess_calls_print.
  - rewrite printed_print, length_app in Hlines.
    change (length [report_header taps]) with 1 in Hlines. lia.
Qed.

Lemma main_report_probes_witness :
  ∃ h' : list event,
    main_report Scenario.world_two_taps ["alice/tools"; "homebrew/core"] ∅ []
    = (h', Returned tt)
    ∧ url_probes h'
      = url_probes [] ++ (tap_url <$> ["alice/tools"; "homebrew/core"])
    ∧ subprocess_calls h' = subprocess_calls []
    ∧ (length (printed []) + 1 + 2 * length ["alice/tools"; "homebrew/core"]
       ≤ length (printed h')
       ≤ length (printed []) + 1 + 3 * length ["alice/tools"; "homebrew/core"])%nat.
Proof.
  apply (main_report_probes Scenario.world_two_taps
           ["alice/tools"; "homebrew/core"] ∅ []).
  - done.
  - repeat constructor.
Defined.



Lemma for_each_ext {A} (l : list A) (f g : A → M unit) :
  (∀ x h, x ∈ l → f x h = g x h) →
  ∀ h, for_each l f h = for_each l g h.
Proof.
  induction l as [|x l IH]; intros Hfg h; simpl; [done|].
  unfold bind. rewrite (Hfg x h) by apply list_elem_of_here.
  destruct (g x h) as [h1 [[]|e]]; [|done].
  apply IH. intros y h2 Hy. apply Hfg. by apply list_elem_of_further.
Qed.

(** X14: the report reads the merged mapping only at the names of the
    taps it walks, taken as string keys: two mappings that agree there give
    the same run.  Items grouped under any other key (a tap that is not
    listed, or a [tap] field that is not a string) are shown nowhere. *)
Theorem main_report_reads_listed_taps (W : World) (taps : list string)
    (map1 map2 : gmap pykey (gmap string (list string))) (h : list event) :
  (∀ tap, tap ∈ taps → map1 !! KStr tap = map2 !! KStr tap) →
  main_report W taps map1 h = main_report W taps map2 h.
Proof.
  intros Hagree. destruct (decide (taps = [])) as [->|Hne]; [done|].
  rewrite !main_report_nonempty by done.
  apply for_each_ext. intros tap h1 Htap. by rewrite (Hagree tap Htap).
Qed.

Lemma main_report_reads_listed_taps_witness :
  main_report Scenario.world_two_taps ["homebrew/core"]
    (merge_formulae_and_casks Scenario.two_taps_map ∅) []
  = main_report Scenario.world_two_taps ["homebrew/core"]
      (merge_formulae_and_casks {[ KStr "homebrew/core" := ["wget"] ]} ∅) [].
Proof.
  apply (main_report_reads_listed_taps Scenario.world_two_taps ["homebrew/core"]).
  intros tap Htap. apply list_elem_of_singleton in Htap as ->.
  rewrite !merge_lookup, lookup_empty. unfold Scenario.two_taps_map.
  rewrite lookup_insert_eq, lookup_singleton_eq.
  rewrite !decide_True; [done| |].
  - apply elem_of_union. left. apply elem_of_dom. eexists. apply lookup_singleton_eq.
  - apply elem_of_union. left. apply elem_of_dom. eexists. apply lookup_insert_eq.
Defined.

(** ** A run in which every [brew] command fails *)

Lemma get_homebrew_taps_failed (W : World) (h : list event) (e : exn) :
  subprocess_run W h ["brew"; "tap"] = Raised e →
  exn_cls e = CalledProcessError →
  get_homebrew_taps W h
  = (h ++ [Subprocess ["brew"; "tap"];
           Print ("Error getting taps: " +:+ exn_str e)],
     Returned []).
Proof.
  intros Hrun Hcls. unfold get_homebrew_taps. unfold_monad.
  rewrite Hrun. rewrite decide_True by done. by rewrite <-app_assoc.
Qed.

Lemma get_installed_items_failed (W : World) (h : list event)
    (item_type : string) (e : exn) :
  subprocess_run W h ["brew"; "list"; "--" +:+ item_type] = Raised e →
  exn_cls e = CalledProcessError →
  get_installed_items W item_type h
  = (h ++ [Subprocess ["brew"; "list"; "--" +:+ item_type];
           Print ("Error getting installed " +:+ item_type +:+ ": " +:+ exn_str e)],
     Returned []).
Proof.
  intros Hrun Hcls. unfold get_installed_items. unfold_monad.
  rewrite Hrun. rewrite decide_True by done. by rewrite <-app_assoc.
Qed.

Lemma main_taps_nil : main_taps [] = ["homebrew/cask"; "homebrew/core"].
Proof. by vm_compute. Qed.

Lemma merge_empty : merge_formulae_and_casks ∅ ∅ = ∅.
Proof.
  apply map_eq. intros tap. rewrite merge_lookup, lookup_empty.
  rewrite dom_empty_L. destruct (decide _) as [Hin|]; [|done].
  apply elem_of_union in Hin as [Hin|Hin]; by apply elem_of_empty in Hin.
Qed.

(** X15: when every [brew] command exits with a non-zero status, [main]
    still returns normally: it runs the three listing commands and no
    metadata query, prints the three error reports, and then reports on
    the two default taps alone, each with the note that nothing is
    installed from it. *)
Theorem main_when_brew_fails (W : World) (h : list event) :
  (∀ hist cmd, ∃ e,
     subprocess_run W hist cmd = Raised e ∧ exn_cls e = CalledProcessError) →
  ∃ (h' : list event) (e1 e2 e3 : exn) (r1 r2 : reach),
    main W h = (h', Returned tt)
    ∧ subprocess_calls h'
      = subprocess_calls h
        ++ [["brew"; "tap"]; ["brew"; "list"; "--formula"];
            ["brew"; "list"; "--cask"]]
    ∧ printed h'
      = printed h
        ++ ["Error getting taps: " +:+ exn_str e1;
            "Error getting installed formula: " +:+ exn_str e2;
            "Error getting installed cask: " +:+ exn_str e3;
            report_header ["homebrew/cask"; "homebrew/core"];
            status_line "homebrew/cask"
              "https://github.com/homebrew/homebrew-cask" r1;
            " ↳ No formulae or casks installed from homebrew/cask";
            status_line "homebrew/core"
              "https://github.com/homebrew/homebrew-core" r2;
            " ↳ No formulae or casks installed from homebrew/core"].
Proof.
  intros Hfail.
  destruct (Hfail h ["brew"; "tap"]) as (e1 & Hrun1 & Hcls1).
  pose proof (get_homebrew_taps_failed W h e1 Hrun1 Hcls1) as Hget.
  set (h1 := h ++ [Subprocess ["brew"; "tap"];
                   Print ("Error getting taps: " +:+ exn_str e1)]) in *.
  destruct (Hfail h1 ["brew"; "list"; "--" +:+ "formula"]) as (e2 & Hrun2 & Hcls2).
  pose proof (get_installed_items_failed W h1 "formula" e2 Hrun2 Hcls2) as Hformula.
  set (h2 := h1 ++ [Subprocess ["brew"; "list"; "--" +:+ "formula"];
                    Print ("Error getting installed " +:+ "formula" +:+ ": "
                           +:+ exn_str e2)]) in *.
  destruct (Hfail h2 ["brew"; "list"; "--" +:+ "cask"]) as (e3 & Hrun3 & Hcls3).
  pose proof (get_installed_items_failed W h2 "cask" e3 Hrun3 Hcls3) as Hcask.
  set (h3 := h2 ++ [Subprocess ["brew"; "list"; "--" +:+ "cask"];
                    Print ("Error getting installed " +:+ "cask" +:+ ": "
                           +:+ exn_str e3)]) in *.
  set (h4 := h3 ++ [Print (report_header ["homebrew/cask"; "homebrew/core"])]).
  destruct (check_tap_run W "homebrew/cask"
              "https://github.com/homebrew/homebrew-cask" ∅ h4 eq_refl)
    as (r1 & _ & Hcheck1).
  set (h5 := h4 ++ UrlOpen "https://github.com/homebrew/homebrew-cask"
               :: (Print <$> status_line "homebrew/cask"
                     "https://github.com/homebrew/homebrew-cask" r1
                     :: item_lines "homebrew/cask" ∅)) in *.
  destruct (check_tap_run W "homebrew/core"
              "https://github.com/homebrew/homebrew-core" ∅ h5 eq_refl)
    as (r2 & _ & Hcheck2).
  set (h6 := h5 ++ UrlOpen "https://github.com/homebrew/homebrew-core"
               :: (Print <$> status_line "homebrew/core"
                     "https://github.com/homebrew/homebrew-core" r2
                     :: item_lines "homebrew/core" ∅)) in *.
  exists h6, e1, e2, e3, r1, r2.
  split; [|split].
  - unfold main. unfold bind at 1. rewrite Hget.
    unfold bind at 1. rewrite Hformula.
    unfold bind at 1. unfold group_items_by_tap at 1, ret at 1.
    unfold bind at 1. rewrite Hcask.
    unfold bind at 1. unfold group_items_by_tap at 1, ret at 1.
    rewrite main_taps_nil, merge_empty.
    rewrite main_report_nonempty by done. fold h4.
    cbn [for_each]. rewrite !lookup_empty.
    change (default ∅ None) with (∅ : gmap string (list string)).
    unfold bind at 1. rewrite Hcheck1.
    unfold bind at 1. by rewrite Hcheck2.
  - unfold h6, h5, h4, h3, h2, h1.
    rewrite !subprocess_calls_block, subprocess_calls_print.
    unfold subprocess_calls. rewrite !omap_app. by rewrite <-!app_assoc.
  - unfold h6, h5. rewrite !printed_probe. unfold h4. rewrite printed_print.
    unfold h3, h2, h1. unfold printed. rewrite !omap_app.
    by rewrite <-!app_assoc.
Qed.

Lemma main_when_brew_fails_witness :
  ∃ (h' : list event) (e1 e2 e3 : exn) (r1 r2 : reach),
    main Scenario.world_brew_fails [] = (h', Returned tt)
    ∧ subprocess_calls h'
      = subprocess_calls []
        ++ [["brew"; "tap"]; ["brew"; "list"; "--formula"];
            ["brew"; "list"; "--cask"]]
    ∧ printed h'
      = printed []
        ++ ["Error getting taps: " +:+ exn_str e1;
            "Error getting installed formula: " +:+ exn_str e2;
            "Error getting installed cask: " +:+ exn_str e3;
            report_header ["homebrew/cask"; "homebrew/core"];
            status_line "homebrew/cask"
              "https://github.com/homebrew/homebrew-cask" r1;
            " ↳ No formulae or casks installed from homebrew/cask";
            status_line "homebrew/core"
              "https://github.com/homebrew/homebrew-core" r2;
            " ↳ No formulae or casks installed from homebrew/core"].
Proof.
  apply (main_when_brew_fails Scenario.world_brew_fails []).
  intros hist cmd. exists Scenario.brew_failed. by split.
Defined.
